(** * Wavetrace setup tool: a shallow embedding of [wt_util.py] and
    [wt_setup.py], and the properties of the layout, hierarchy and patching
    stages.

    Python values are modelled as follows: [str] is [string], [int] is [Z],
    a list is a [list], the [instance_count] dictionary is a [gmap], and the
    files on disk are a [gmap] from path to contents.  A call that may stop
    the program has an [outcome]: it returns, it leaves through
    [util.error] (message on stderr, [sys.exit(1)]), or it raises. *)

From stdpp Require Import gmap strings list.
From Stdlib Require Import ZArith DecimalString DecimalPos DecimalZ Ascii String Lia.

#[local] Set Warnings "-register-all".
#[local] Open Scope Z_scope.
#[local] Arguments String.append !s1 s2 / : simpl nomatch.


(* ===================================================================== *)
(** ** Outcomes of a call *)
(* ===================================================================== *)

(** The Python exceptions the modelled code can raise. *)
Inductive exn : Type :=
| ValueError
| IndexError
| TypeError
| IOError
| AttributeError.

Inductive outcome (A : Type) : Type :=
| Ok (a : A)
| Exit (msg : string)      (* util.error(msg): message, then sys.exit(1) *)
| Raise (e : exn).         (* an uncaught exception *)

Arguments Ok {A} a.
Arguments Exit {A} msg.
Arguments Raise {A} e.

Definition bind {A B : Type} (m : outcome A) (k : A -> outcome B) : outcome B :=
  match m with
  | Ok a => k a
  | Exit msg => Exit msg
  | Raise e => Raise e
  end.

Declare Scope outcome_scope.
Delimit Scope outcome_scope with outcome.
Notation "'do' x <- m ; k" := (bind m (fun x => k))
  (at level 10, x name, m at level 100, k at level 200) : outcome_scope.
Notation "'do' ' p <- m ; k" := (bind m (fun x => match x with p => k end))
  (at level 10, p pattern, m at level 100, k at level 200) : outcome_scope.
#[local] Open Scope outcome_scope.

(** [util.error(message)] *)
Definition error {A : Type} (message : string) : outcome A := Exit message.

(* ===================================================================== *)
(** ** Python string primitives *)
(* ===================================================================== *)

Definition nl_char : ascii := "010"%char.
Definition nl : string := String nl_char "".

(** [c in s] for a one-character [c]. *)
Fixpoint str_contains (c : ascii) (s : string) : bool :=
  match s with
  | "" => false
  | String d s' => if Ascii.eqb d c then true else str_contains c s'
  end.

(** [s.count(c)] for a one-character [c]. *)
Fixpoint str_count (c : ascii) (s : string) : Z :=
  match s with
  | "" => 0
  | String d s' => (if Ascii.eqb d c then 1 else 0) + str_count c s'
  end.

(** [s.split(sep)] for a one-character separator: never empty. *)
Fixpoint str_split (sep : ascii) (s : string) : list string :=
  match s with
  | "" => [""]
  | String c s' =>
      if Ascii.eqb c sep then "" :: str_split sep s'
      else match str_split sep s' with
           | [] => [String c ""]
           | h :: t => String c h :: t
           end
  end.

(** [l[-1]] *)
Definition list_last (l : list string) : outcome string :=
  match l with
  | [] => Raise IndexError
  | _ => Ok (List.last l "")
  end.

(** [l[0]] *)
Definition list_first (l : list string) : outcome string :=
  match l with
  | [] => Raise IndexError
  | h :: _ => Ok h
  end.

Fixpoint str_take (n : nat) (s : string) : string :=
  match n, s with
  | O, _ => ""
  | S _, "" => ""
  | S n', String c s' => String c (str_take n' s')
  end.

Fixpoint str_drop (n : nat) (s : string) : string :=
  match n, s with
  | O, _ => s
  | S _, "" => ""
  | S n', String _ s' => str_drop n' s'
  end.

Definition slen (s : string) : Z := Z.of_nat (String.length s).

(** Python's normalisation of a slice bound: a negative bound counts from
    the end, and the result is clipped to [0, len]. *)
Definition slice_bound (len i : Z) : Z :=
  let j := if i <? 0 then i + len else i in
  Z.max 0 (Z.min len j).

(** [s[lo:hi]] *)
Definition py_slice (s : string) (lo hi : Z) : string :=
  let a := slice_bound (slen s) lo in
  let b := slice_bound (slen s) hi in
  str_take (Z.to_nat (b - a)) (str_drop (Z.to_nat a) s).

(** [s[i]]: IndexError outside [-len, len). *)
Definition py_index (s : string) (i : Z) : outcome ascii :=
  let j := if i <? 0 then i + slen s else i in
  if (0 <=? j) && (j <? slen s) then
    match String.get (Z.to_nat j) s with
    | Some c => Ok c
    | None => Raise IndexError
    end
  else Raise IndexError.

(** [sep.join(l)] *)
Definition py_join (sep : string) (l : list string) : string :=
  String.concat sep l.

(** [s.startswith(p)] *)
Definition starts_with (p s : string) : bool := String.prefix p s.

(** The occurrences still to replace after one was replaced; [None] is
    "no limit". *)
Definition count_down (count : option nat) : option nat :=
  match count with Some (S n) => Some n | _ => None end.

(** [s.replace(old, new)] with an empty [old]: [new] goes before every
    character and at the end, at most [count] times when a count is given. *)
Fixpoint replace_empty (new : string) (count : option nat) (s : string) : string :=
  match count with
  | Some O => s
  | _ =>
      match s with
      | "" => new
      | String c s' => new +:+ String c (replace_empty new (count_down count) s')
      end
  end.

(** [s.replace(old, new)] with a non-empty [old]: the occurrences are found
    left to right and do not overlap.  [skip] is the number of characters of
    an occurrence just replaced that are still to be passed over. *)
Fixpoint replace_scan (old new : string) (count : option nat) (skip : nat)
    (s : string) : string :=
  match s with
  | "" => ""
  | String c s' =>
      match skip with
      | S k => replace_scan old new count k s'
      | O =>
          match count with
          | Some O => s
          | _ =>
              if String.prefix old s then
                new +:+ replace_scan old new (count_down count)
                          (String.length old - 1) s'
              else String c (replace_scan old new count 0 s')
          end
      end
  end.

(** [s.replace(old, new)] ([count = None]) and [s.replace(old, new, n)]
    ([count = Some n]). *)
Definition py_replace (old new : string) (count : option nat) (s : string) : string :=
  match old with
  | "" => replace_empty new count s
  | _ => replace_scan old new count 0 s
  end.

(** ["%d" % z] *)
Definition fmt_d (z : Z) : string := NilZero.string_of_int (Z.to_int z).

(** *** [int(s)], base 10, as CPython 2.7 reads a [str] *)

Definition is_space (c : ascii) : bool :=
  let n := nat_of_ascii c in
  (Nat.eqb n 32) || ((Nat.leb 9 n) && (Nat.leb n 13)).

Definition digit_val (c : ascii) : option Z :=
  let n := nat_of_ascii c in
  if (Nat.leb 48 n) && (Nat.leb n 57) then Some (Z.of_nat (n - 48)) else None.

Fixpoint skip_spaces (s : string) : string :=
  match s with
  | String c s' => if is_space c then skip_spaces s' else s
  | "" => ""
  end.

(** Reads the digits at the front of [s]: the value so far, whether a digit
    was seen, and what follows the digits. *)
Fixpoint read_digits (acc : Z) (seen : bool) (s : string) : Z * bool * string :=
  match s with
  | "" => (acc, seen, "")
  | String c s' =>
      match digit_val c with
      | Some d => read_digits (10 * acc + d) true s'
      | None => (acc, seen, s)
      end
  end.

(** [None] is [ValueError: invalid literal for int() with base 10]. *)
Definition py_int (s : string) : option Z :=
  let s1 := skip_spaces s in
  let '(sign, s2) :=
    match s1 with
    | String "-" r => (-1, r)
    | String "+" r => (1, r)
    | _ => (1, s1)
    end in
  let '(v, seen, rest) := read_digits 0 false (skip_spaces s2) in
  if seen then
    match skip_spaces rest with
    | "" => Some (sign * v)
    | _ => None
    end
  else None.

Definition int (s : string) : outcome Z :=
  match py_int s with
  | Some z => Ok z
  | None => Raise ValueError
  end.

(** *** [re.search(r'\[(.*?)\]', s)] *)

(** After an opening bracket: the shortest run of characters other than a
    newline that is closed by a bracket. *)
Fixpoint scan_to_close (s : string) : option string :=
  match s with
  | "" => None
  | String c s' =>
      if Ascii.eqb c "]" then Some ""
      else if Ascii.eqb c nl_char then None
      else option_map (String c) (scan_to_close s')
  end.

(** The leftmost match; the result is [group(0)], brackets included. *)
Fixpoint re_search_range (s : string) : option string :=
  match s with
  | "" => None
  | String c s' =>
      if Ascii.eqb c "[" then
        match scan_to_close s' with
        | Some inside => Some ("[" +:+ inside +:+ "]")
        | None => re_search_range s'
        end
      else re_search_range s'
  end.

(* ===================================================================== *)
(** ** wt_util.py *)
(* ===================================================================== *)

(** [net_name(net_string)] *)
Definition net_name (net_string : string) : outcome string :=
  list_first (str_split "[" net_string).

(** [net_range(net_string)] *)
Definition net_range (net_string : string) : outcome (Z * Z) :=
  match re_search_range net_string with
  | Some range_str =>
      let range_nums := str_split ":" (py_slice range_str 1 (-1)) in
      match range_nums with
      | [] => Raise IndexError
      | [n0] =>
          do hi <- int n0;
          do lo <- int n0;
          Ok (hi, lo)
      | n0 :: n1 :: _ =>
          do hi <- int n0;
          do lo <- int n1;
          Ok (hi, lo)
      end
  | None => Ok (0, 0)
  end.

(** [net_width(net_string)] *)
Definition net_width (net_string : string) : outcome Z :=
  do '(hi, lo) <- net_range net_string;
  Ok (Z.abs (hi - lo) + 1).


(* ===================================================================== *)
(** ** wt_setup.py: the data model *)
(* ===================================================================== *)

Definition OUTPUT_DIR : string := "output/".

(** [class DbgNet]; [vector_pos] is [None] until the layout pass. *)
Record DbgNet : Type := mkDbgNet {
  path : string;
  name : string;
  bit_width : Z;
  has_range : bool;
  vector_pos : option Z;
}.

(** [DbgNet.__init__(path, has_range)] *)
Definition DbgNet_init (path : string) (has_range : bool) : outcome DbgNet :=
  do name <- list_last (str_split "." path);
  do bit_width <- net_width name;
  Ok (mkDbgNet path name bit_width has_range None).

(** [Vparse.MOD_STYLE_1995], [Vparse.MOD_STYLE_2001] *)
Inductive mod_style : Type :=
| MOD_STYLE_1995
| MOD_STYLE_2001.

(** A location as the locator gives it: line and column, both counted
    from 1. *)
Definition loc : Type := (Z * Z)%type.

(** What [Vparse.locate_instance] returns and the patcher reads. *)
Record InstLoc : Type := mkInstLoc {
  inst_type : string;
  inst_type_loc : loc;
  inst_port_loc : loc;
}.

(** The attributes [locate_items] stores on an instance. *)
Record ItemLocs : Type := mkItemLocs {
  module_location : loc;
  port_location : Z * Z * mod_style;
  instance_locations : list InstLoc;
  declaration_location : loc;
  endmodule_location : loc;
}.

(** [class DbgInstance]; [iname] is the attribute [name], [port_width] is
    [None] until the width pass, [locs] is unset until [locate_items]. *)
Inductive DbgInstance : Type := mkDbgInstance {
  iname : string;
  module_type : string;
  filename : string;
  local_nets : list DbgNet;
  sub_instances : list DbgInstance;
  port_width : option Z;
  is_top : bool;
  inst_id : Z;
  locs : option ItemLocs;
}.

Definition with_local_nets (i : DbgInstance) (nets : list DbgNet) : DbgInstance :=
  mkDbgInstance (iname i) (module_type i) (filename i) nets (sub_instances i)
    (port_width i) (is_top i) (inst_id i) (locs i).

Definition with_sub_instances (i : DbgInstance) (subs : list DbgInstance) : DbgInstance :=
  mkDbgInstance (iname i) (module_type i) (filename i) (local_nets i) subs
    (port_width i) (is_top i) (inst_id i) (locs i).

Definition with_locs (i : DbgInstance) (l : ItemLocs) : DbgInstance :=
  mkDbgInstance (iname i) (module_type i) (filename i) (local_nets i)
    (sub_instances i) (port_width i) (is_top i) (inst_id i) (Some l).

(** [DbgInstance.get_sub_instance(name)]: the first child of that name. *)
Definition get_sub_instance (i : DbgInstance) (nm : string) : option DbgInstance :=
  List.find (fun m => String.eqb (iname m) nm) (sub_instances i).

(** A loop over a list that rewrites each element while it threads an
    accumulator: the shape of both layout passes. *)
Definition map_accum {A S : Type} (f : A -> S -> A * S) : list A -> S -> list A * S :=
  fix go (l : list A) (s : S) : list A * S :=
    match l with
    | [] => ([], s)
    | x :: l' =>
        let '(x', s1) := f x s in
        let '(l'', s2) := go l' s1 in
        (x' :: l'', s2)
    end.

Definition sum_widths (nets : list DbgNet) : Z :=
  fold_right (fun n acc => bit_width n + acc) 0 nets.

(** [DbgInstance.set_port_widths()] *)
Fixpoint set_port_widths (i : DbgInstance) : DbgInstance * Z :=
  match i with
  | mkDbgInstance nm mt fn nets subs _ top id lc =>
      let '(subs', w) :=
        map_accum (fun c acc => let '(c', wc) := set_port_widths c in (c', acc + wc))
          subs (sum_widths nets) in
      (mkDbgInstance nm mt fn nets subs' (Some w) top id lc, w)
  end.

(** The body of the loop over [local_nets] in [set_vector_pos]. *)
Definition set_net_pos (n : DbgNet) (pos : Z) : DbgNet * Z :=
  let pos' := pos + bit_width n in
  (mkDbgNet (path n) (name n) (bit_width n) (has_range n) (Some (pos' - 1)), pos').

(** [DbgInstance.set_vector_pos(offset)] *)
Fixpoint set_vector_pos (i : DbgInstance) (offset : Z) : DbgInstance * Z :=
  match i with
  | mkDbgInstance nm mt fn nets subs pw top id lc =>
      let '(nets', pos) := map_accum set_net_pos nets offset in
      let '(subs', pos') := map_accum (fun c p => set_vector_pos c p) subs pos in
      (mkDbgInstance nm mt fn nets' subs' pw top id lc, pos')
  end.

(** The nets of a tree in the order of [write_signals_in_order]: the local
    nets of an instance, then each sub-instance in turn. *)
Fixpoint all_nets (i : DbgInstance) : list DbgNet :=
  match i with
  | mkDbgInstance _ _ _ nets subs _ _ _ _ =>
      nets ++ flat_map all_nets subs
  end.


(** [i.name + "_wt_debug"]: the wire that carries the debug vector of a
    sub-instance. *)
Definition debug_wire (i : DbgInstance) : string := iname i +:+ "_wt_debug".

(** The list [sigs] of [_get_assign_string]. *)
Definition assign_sigs (i : DbgInstance) : list string :=
  map debug_wire (rev (sub_instances i)) ++ map name (rev (local_nets i)).

(** [DbgInstance._get_assign_string()] *)
Definition _get_assign_string (i : DbgInstance) : string :=
  py_join ("," +:+ nl +:+ "                     ") (assign_sigs i).

(* ===================================================================== *)
(** ** wt_setup.py: the module index *)
(* ===================================================================== *)

(** [class WTSetup], the attributes the modelled methods use.
    [src_modules] holds the pairs [[module_type, fname]]. *)
Record WTSetup : Type := mkWTSetup {
  src_path : option string;
  src_modules : list (string * string);
  top_level : option DbgInstance;
  clk_net : string;
  rst_net : string;
  net_paths : list string;
  data_bits : Z;
  debug_files : list string;
}.

(** The list [matches] of [_module_exists]. *)
Definition module_matches (src_modules : list (string * string))
    (module_type : string) : list string :=
  map snd (List.filter (fun m => String.eqb (fst m) module_type) src_modules).

Definition multiple_definitions_msg (module_type : string) (matches : list string) : string :=
  "Found multiple definitions for module '" +:+ module_type +:+ "' " +:+
  "in these files: " +:+ py_join ", " matches +:+ ". " +:+
  "You can exclude source files or directories with the 'rm_sources()' " +:+
  "function)".

(** [WTSetup._module_exists(module_type)] *)
Definition _module_exists (src_modules : list (string * string))
    (module_type : string) : outcome bool :=
  let matches := module_matches src_modules module_type in
  if (List.length matches =? 0)%nat then Ok false
  else if (1 <? List.length matches)%nat then
    error (multiple_definitions_msg module_type matches)
  else Ok true.

(** [WTSetup._get_fname(mod_name)]; Python's [None] is [None]. *)
Definition _get_fname (src_modules : list (string * string))
    (mod_name : string) : option string :=
  option_map snd (List.find (fun m => String.eqb (fst m) mod_name) src_modules).

(** [str(x)] of an optional string, as ['%s'] prints it. *)
Definition fmt_opt (o : option string) : string :=
  match o with Some s => s | None => "None" end.

Definition no_sources_msg : string :=
  "Please specify a root directory for your verilog sources using " +:+
  "the 'wt.sources()' function.".

Definition no_top_module_msg (module_type : string) (src_path : option string) : string :=
  "Cannot find top level module '" +:+ module_type +:+
  "' within search path '" +:+ fmt_opt src_path +:+ "/'".

(** A file name that is [None] fails at its first use; no path of the
    modelled code reaches this after [_module_exists] has returned [True]. *)
Definition fname_of (o : option string) : outcome string :=
  match o with Some f => Ok f | None => Raise TypeError end.

(** [WTSetup.top(module_type)] *)
Definition top (wt : WTSetup) (module_type : string) : outcome WTSetup :=
  do _ <- (match src_path wt with
           | None | Some "" => error no_sources_msg
           | Some _ => Ok tt
           end);
  do found <- _module_exists (src_modules wt) module_type;
  do _ <- (if negb found
           then error (no_top_module_msg module_type (src_path wt))
           else Ok tt);
  do fname <- fname_of (_get_fname (src_modules wt) module_type);
  Ok (mkWTSetup (src_path wt) (src_modules wt)
        (Some (mkDbgInstance "Top" module_type fname [] [] None true 0 None))
        (clk_net wt) (rst_net wt) (net_paths wt) (data_bits wt) (debug_files wt)).

Definition bad_net_format_msg (n : string) : string :=
  "Bad net format '" +:+ n +:+ "' (multi-dimensional arrays are not" +:+
  " supported)".

(** The body of the loop of [WTSetup.net]: the checks on one net. *)
Definition net_check (n : string) : outcome unit :=
  do _ <- (if 1 <? str_count "[" n then error (bad_net_format_msg n) else Ok tt);
  do width <- net_width n;
  Ok tt.

Fixpoint net_loop (base : string) (nets : list string) (acc : list string)
    : outcome (list string) :=
  match nets with
  | [] => Ok acc
  | n :: nets' =>
      do _ <- net_check n;
      net_loop base nets' (acc ++ [base +:+ n])
  end.

(** [WTSetup.net(nets)] ([base = None]) and [WTSetup.net(base, nets)]. *)
Definition net (wt : WTSetup) (base : option string) (nets : list string)
    : outcome WTSetup :=
  let base := match base with Some b => b +:+ "." | None => "" end in
  do paths <- net_loop base nets (net_paths wt);
  Ok (mkWTSetup (src_path wt) (src_modules wt) (top_level wt)
        (clk_net wt) (rst_net wt) paths (data_bits wt) (debug_files wt)).

(* ===================================================================== *)
(** ** wt_setup.py: the hierarchy builder *)
(* ===================================================================== *)

Definition unable_to_locate_net_msg (net_name curr_file : string) : string :=
  "Unable to locate net '" +:+ net_name +:+ "' in file '" +:+ curr_file +:+ "'".

(** The message of the ambiguous-width error. *)
Definition unable_to_extract_range_msg (path : string) : string :=
  "Unable to extract bit range from net name '" +:+ path +:+ "'," +:+ nl +:+
  "please append '[x:y]' or '[x]' to all multi-bit nets.".

Definition failed_to_locate_instance_msg (inst_name curr_file path : string) : string :=
  "failed to locate instance '" +:+ inst_name +:+ "' in file '" +:+ curr_file +:+
  "', as specified by net '" +:+ path +:+ "'".

Definition cannot_find_module_msg (inst_type inst_name path : string) : string :=
  "Cannot find module '" +:+ inst_type +:+ "' for instance '" +:+ inst_name +:+
  "' needed for net '" +:+ path +:+ "'." +:+ nl +:+
  "Check that the source code has been added with 'add_sources()' function".

(** [x in l] for a list of strings. *)
Definition str_in (x : string) (l : list string) : bool :=
  existsb (String.eqb x) l.

(** The loop at the end of [Vparse.check_net_type], over the token lists
    that [sig_def.scanString] yields. *)
Fixpoint check_tokens (net_name : string) (scanned : list (list string)) : string :=
  match scanned with
  | [] => "none"
  | token_list :: rest =>
      if str_in net_name token_list then
        if str_in "net_is_a_vector" token_list then "vector" else "single"
      else check_tokens net_name rest
  end.

(** In the first child named [nm], the child after the walk went through
    it: the object [get_sub_instance] returned is updated in place. *)
Fixpoint update_sub (nm : string) (new : DbgInstance) (subs : list DbgInstance)
    : list DbgInstance :=
  match subs with
  | [] => []
  | m :: rest =>
      if String.eqb (iname m) nm then new :: rest
      else m :: update_sub nm new rest
  end.

Section Builder.

(** The grammar library's part of the locator: the token lists of the
    declarations that [sig_def.scanString] finds in a file, and the result
    of [Vparse.locate_instance(filename, module_type, instance_name)],
    [None] when it raises [ParseException]. *)
Variable scan_sig_defs : string -> list (list string).
Variable locate_instance : string -> string -> string -> option InstLoc.

(** [Vparse.check_net_type(filename, net_name)] *)
Definition check_net_type (filename net_name : string) : string :=
  check_tokens net_name (scan_sig_defs filename).

(** The net level of [_build_data_structure] ([i == levels - 1]). *)
Definition add_net (curr_instance : DbgInstance) (path net_string : string)
    : outcome DbgInstance :=
  let curr_file := filename curr_instance in
  do net_name <- list_first (str_split "[" net_string);
  let net_type := check_net_type curr_file net_name in
  do _ <- (if String.eqb net_type "none"
           then error (unable_to_locate_net_msg net_name curr_file)
           else Ok tt);
  do net <- DbgNet_init path (String.eqb net_type "vector");
  do _ <- (if negb (str_contains "[" path) && has_range net
           then error (unable_to_extract_range_msg path)
           else Ok tt);
  Ok (with_local_nets curr_instance (local_nets curr_instance ++ [net])).

(** The creation of a sub-instance in [_build_data_structure]
    ([sub_inst is None]). *)
Definition new_sub_instance (src_modules : list (string * string))
    (curr_instance : DbgInstance) (sub_inst_name path : string)
    (instance_count : gmap string Z) : outcome (DbgInstance * gmap string Z) :=
  let curr_file := filename curr_instance in
  match locate_instance curr_file (module_type curr_instance) sub_inst_name with
  | None => error (failed_to_locate_instance_msg sub_inst_name curr_file path)
  | Some inst_res =>
      let inst_type := inst_type inst_res in
      do found <- _module_exists src_modules inst_type;
      do _ <- (if negb found
               then error (cannot_find_module_msg inst_type sub_inst_name path)
               else Ok tt);
      do fname <- fname_of (_get_fname src_modules inst_type);
      let count := default 0 (instance_count !! fname) + 1 in
      Ok (mkDbgInstance sub_inst_name inst_type fname [] [] None false
            (count - 1) None,
          <[fname := count]> instance_count)
  end.

(** The loop over the levels of one path, from [curr_instance] down. *)
Fixpoint walk_path (src_modules : list (string * string)) (hierarchy : list string)
    (path : string) (curr_instance : DbgInstance) (instance_count : gmap string Z)
    : outcome (DbgInstance * gmap string Z) :=
  match hierarchy with
  | [] => Ok (curr_instance, instance_count)
  | [net_string] =>
      do i <- add_net curr_instance path net_string;
      Ok (i, instance_count)
  | sub_inst_name :: rest =>
      match get_sub_instance curr_instance sub_inst_name with
      | Some sub_inst =>
          do '(sub_inst', count') <-
            walk_path src_modules rest path sub_inst instance_count;
          Ok (with_sub_instances curr_instance
                (update_sub sub_inst_name sub_inst' (sub_instances curr_instance)),
              count')
      | None =>
          do '(sub_inst, count1) <-
            new_sub_instance src_modules curr_instance sub_inst_name path
              instance_count;
          do '(sub_inst', count') <-
            walk_path src_modules rest path sub_inst count1;
          Ok (with_sub_instances curr_instance
                (sub_instances curr_instance ++ [sub_inst']),
              count')
      end
  end.

(** The loop over [net_paths]. *)
Fixpoint build_paths (src_modules : list (string * string)) (paths : list string)
    (top : DbgInstance) (instance_count : gmap string Z)
    : outcome (DbgInstance * gmap string Z) :=
  match paths with
  | [] => Ok (top, instance_count)
  | path :: paths' =>
      do '(top', count') <-
        walk_path src_modules (str_split "." path) path top instance_count;
      build_paths src_modules paths' top' count'
  end.

(** [WTSetup._build_data_structure()] *)
Definition _build_data_structure (wt : WTSetup) : outcome WTSetup :=
  match top_level wt with
  | None => Raise AttributeError
  | Some top =>
      do '(top1, _) <- build_paths (src_modules wt) (net_paths wt) top ∅;
      let '(top2, data_bits) := set_port_widths top1 in
      let '(top3, _) := set_vector_pos top2 0 in
      Ok (mkWTSetup (src_path wt) (src_modules wt) (Some top3)
            (clk_net wt) (rst_net wt) (net_paths wt) data_bits (debug_files wt))
  end.

End Builder.

(* ===================================================================== *)
(** ** ntpath: [basename] and [splitext] *)
(* ===================================================================== *)

Definition is_sep (c : ascii) : bool := Ascii.eqb c "/" || Ascii.eqb c "\".

Fixpoint has_sep (s : string) : bool :=
  match s with
  | "" => false
  | String c s' => is_sep c || has_sep s'
  end.

(** [p.replace('/', '\\')] *)
Fixpoint norm_seps (p : string) : string :=
  match p with
  | "" => ""
  | String c p' => String (if Ascii.eqb c "/" then "\"%char else c) (norm_seps p')
  end.

(** [s.find(c, start)] for a one-character [c]: [None] is [-1]. *)
Fixpoint str_find (c : ascii) (start : nat) (s : string) : option nat :=
  match s with
  | "" => None
  | String d s' =>
      match start with
      | S k => option_map S (str_find c k s')
      | O => if Ascii.eqb d c then Some O else option_map S (str_find c O s')
      end
  end.

(** [ntpath.splitdrive(p)]: a drive letter with its colon, or the host and
    share of a UNC path.  The bounds of the slices are constants or indices
    that [find] returned, so [str_take] and [str_drop] are the slices. *)
Definition splitdrive (p : string) : string * string :=
  if 1 <? slen p then
    let normp := norm_seps p in
    if String.eqb (str_take 2 normp) "\\"
       && negb (String.eqb (str_take 1 (str_drop 2 normp)) "\") then
      match str_find "\" 2 normp with
      | None => ("", p)
      | Some index =>
          match str_find "\" (index + 1) normp with
          | Some index2 =>
              if (index2 =? index + 1)%nat then ("", p)
              else (str_take index2 p, str_drop index2 p)
          | None => (p, "")
          end
      end
    else if String.eqb (str_take 1 (str_drop 1 normp)) ":" then
      (str_take 2 p, str_drop 2 p)
    else ("", p)
  else ("", p).

(** What follows the last separator: the [tail] of [ntpath.split]. *)
Fixpoint last_component (p : string) : string :=
  match p with
  | "" => ""
  | String c p' => if is_sep c || has_sep p' then last_component p' else p
  end.

(** [ntpath.basename(p)] *)
Definition basename (p : string) : string :=
  last_component (snd (splitdrive p)).

(** [s.rfind(c)] for a one-character [c]. *)
Fixpoint str_rfind (c : ascii) (s : string) : Z :=
  match s with
  | "" => -1
  | String d s' =>
      let r := str_rfind c s' in
      if 0 <=? r then r + 1
      else if Ascii.eqb d c then 0 else -1
  end.

Fixpoint all_dots (s : string) : bool :=
  match s with
  | "" => true
  | String c s' => Ascii.eqb c "." && all_dots s'
  end.

(** [ntpath.splitext(p)]: the extension starts at the last dot, unless only
    dots stand between the last separator and that dot. *)
Definition splitext (p : string) : string * string :=
  let sepIndex := Z.max (str_rfind "\" p) (str_rfind "/" p) in
  let dotIndex := str_rfind "." p in
  if sepIndex <? dotIndex then
    if all_dots (py_slice p (sepIndex + 1) dotIndex) then (p, "")
    else (str_take (Z.to_nat dotIndex) p, str_drop (Z.to_nat dotIndex) p)
  else (p, "").

(* ===================================================================== *)
(** ** wt_setup.py: the patcher *)
(* ===================================================================== *)

(** The lines a file object yields: each keeps its newline, the last one
    may have none. *)
Fixpoint file_lines (s : string) : list string :=
  match s with
  | "" => []
  | String c s' =>
      if Ascii.eqb c nl_char then String c "" :: file_lines s'
      else match file_lines s' with
           | [] => [String c ""]
           | h :: t => String c h :: t
           end
  end.

Definition str_concat (l : list string) : string :=
  fold_right String.append "" l.

(** ["_wt%d" % inst_id] *)
Definition wt_suffix (inst_id : Z) : string := "_wt" +:+ fmt_d inst_id.

(** The path of the file [generate_hdl] writes. *)
Definition filename_out (i : DbgInstance) : string :=
  let '(fname, ext) := splitext (basename (filename i)) in
  OUTPUT_DIR +:+ fname +:+ wt_suffix (inst_id i) +:+ ext.

(** The start of [generate_hdl]: a declaration point on the line of the
    port list moves to the start of the next line. *)
Definition fix_declaration (l : ItemLocs) : ItemLocs :=
  if fst (fst (port_location l)) =? fst (declaration_location l) then
    mkItemLocs (module_location l) (port_location l) (instance_locations l)
      (fst (declaration_location l) + 1, 0) (endmodule_location l)
  else l.

Definition debug_marker : string := "//---WT_DEBUG---".

(** [DbgInstance._write_debug_block(fp, line, col, content)]: the strings
    written to [fp], in order. *)
Definition _write_debug_block (line : string) (col : Z) (content : string)
    : outcome (list string) :=
  do c <- py_index line col;
  let add_cr := negb (Ascii.eqb c nl_char) in
  Ok ([py_slice line 0 col;
       nl +:+ debug_marker +:+ nl;
       content;
       debug_marker +:+ nl;
       py_slice line col (-1)]
      ++ (if add_cr then [nl] else [])).

(** What the patcher does with one input line: it writes a line, the input
    line or a renamed one, or it writes a debug block. *)
Inductive line_out : Type :=
| Plain (s : string)
| DebugBlock (line : string) (col : Z) (content : string).

Definition emit (o : line_out) : outcome (list string) :=
  match o with
  | Plain s => Ok [s]
  | DebugBlock line col content => _write_debug_block line col content
  end.

(** [self.port_width - 1]: a width that is still [None] is a TypeError. *)
Definition width_msb (port_width : option Z) : outcome Z :=
  match port_width with
  | Some w => Ok (w - 1)
  | None => Raise TypeError
  end.

Definition nth_sub (subs : list DbgInstance) (j : nat) : outcome DbgInstance :=
  match nth_error subs j with
  | Some s => Ok s
  | None => Raise IndexError
  end.

(** The loop over [instance_locations] for one line: [Some] is
    [inst_match], with what was written before the [break]. *)
Fixpoint scan_instances (subs : list DbgInstance) (j : nat) (ilocs : list InstLoc)
    (curr_line_num : Z) (curr_line_str : string) : outcome (option line_out) :=
  match ilocs with
  | [] => Ok None
  | inst_loc :: rest =>
      let col := snd (inst_port_loc inst_loc) in
      if curr_line_num =? fst (inst_type_loc inst_loc) - 1 then
        do sub <- nth_sub subs j;
        let mod_type := module_type sub in
        let id_str := wt_suffix (inst_id sub) in
        let curr_line_str := py_replace mod_type (mod_type +:+ id_str) (Some 1%nat)
                               curr_line_str in
        let col := col + slen id_str in
        if curr_line_num =? fst (inst_port_loc inst_loc) - 1 then
          do sub <- nth_sub subs j;
          let content := "    .wt_debug(" +:+ iname sub +:+ "_wt_debug)," +:+ nl in
          Ok (Some (DebugBlock curr_line_str col content))
        else Ok (Some (Plain curr_line_str))
      else if curr_line_num =? fst (inst_port_loc inst_loc) - 1 then
        do sub <- nth_sub subs j;
        let content := "    .wt_debug(" +:+ iname sub +:+ "_wt_debug)," +:+ nl in
        Ok (Some (DebugBlock curr_line_str col content))
      else scan_instances subs (S j) rest curr_line_num curr_line_str
  end.

(** The text inserted at the port list. *)
Definition port_content (style : mod_style) (i : DbgInstance) : outcome string :=
  match style with
  | MOD_STYLE_2001 =>
      if is_top i then
        Ok ("  input  wt_uart_rx," +:+ nl +:+ "  output wt_uart_tx," +:+ nl)
      else
        do w <- width_msb (port_width i);
        Ok ("  output [" +:+ fmt_d w +:+ ":0] wt_debug," +:+ nl)
  | MOD_STYLE_1995 =>
      if is_top i then
        Ok ("  wt_uart_rx," +:+ nl +:+ "  wt_uart_tx," +:+ nl)
      else Ok ("  wt_debug," +:+ nl)
  end.

(** The wires declared for the sub-instances. *)
Fixpoint sub_wires (subs : list DbgInstance) : outcome string :=
  match subs with
  | [] => Ok ""
  | j :: rest =>
      do w <- width_msb (port_width j);
      do more <- sub_wires rest;
      Ok ("  wire [" +:+ fmt_d w +:+ ":0] " +:+ iname j +:+ "_wt_debug;" +:+ nl +:+ more)
  end.

(** The text inserted at the declaration point. *)
Definition declaration_content (style : mod_style) (i : DbgInstance) : outcome string :=
  do redeclared <-
    (match style with
     | MOD_STYLE_1995 =>
         if is_top i then
           Ok ("  input  wt_uart_rx;" +:+ nl +:+ "  output wt_uart_tx;" +:+ nl)
         else
           do w <- width_msb (port_width i);
           Ok ("  output [" +:+ fmt_d w +:+ ":0] wt_debug;" +:+ nl)
     | MOD_STYLE_2001 => Ok ""
     end);
  do vector <-
    (if is_top i then
       do w <- width_msb (port_width i);
       Ok ("  wire [" +:+ fmt_d w +:+ ":0] wt_debug;" +:+ nl)
     else Ok "");
  do wires <- sub_wires (sub_instances i);
  Ok (redeclared +:+ vector +:+ wires).

(** The text inserted before [endmodule]. *)
Definition endmodule_content (i : DbgInstance) (wt_instance_string : string) : string :=
  "  assign wt_debug = {" +:+ _get_assign_string i +:+ "};" +:+ nl +:+
  (if is_top i then wt_instance_string else "").

(** The body of the loop over the lines of the input file. *)
Definition process_line (i : DbgInstance) (l : ItemLocs) (wt_instance_string : string)
    (curr_line_num : Z) (curr_line_str : string) : outcome line_out :=
  do inst_match <-
    scan_instances (sub_instances i) 0 (instance_locations l) curr_line_num curr_line_str;
  match inst_match with
  | Some out => Ok out
  | None =>
      let '(port_line, port_col, style) := port_location l in
      let found_module_decl := curr_line_num =? fst (module_location l) - 1 in
      let id_str := if is_top i then "" else wt_suffix (inst_id i) in
      let line := if found_module_decl
                  then py_replace (module_type i) (module_type i +:+ id_str) None
                         curr_line_str
                  else curr_line_str in
      let port_col := if found_module_decl then port_col + slen id_str else port_col in
      if curr_line_num =? port_line - 1 then
        do content <- port_content style i;
        Ok (DebugBlock line port_col content)
      else if found_module_decl then Ok (Plain line)
      else if curr_line_num =? fst (declaration_location l) - 1 then
        do content <- declaration_content style i;
        if 0 <? slen content
        then Ok (DebugBlock line (snd (declaration_location l)) content)
        else Ok (Plain line)
      else if curr_line_num =? fst (endmodule_location l) - 1 then
        Ok (DebugBlock line (snd (endmodule_location l) - 1)
              (endmodule_content i wt_instance_string))
      else Ok (Plain line)
  end.

(** The loop over the lines: what each line makes the patcher do. *)
Fixpoint patch_lines (i : DbgInstance) (l : ItemLocs) (wt_instance_string : string)
    (curr_line_num : Z) (lines : list string) : outcome (list line_out) :=
  match lines with
  | [] => Ok []
  | curr_line_str :: rest =>
      do out <- process_line i l wt_instance_string curr_line_num curr_line_str;
      do _ <- emit out;
      do outs <- patch_lines i l wt_instance_string (curr_line_num + 1) rest;
      Ok (out :: outs)
  end.

(** Everything written to the output file for a list of line actions. *)
Fixpoint emit_all (outs : list line_out) : outcome (list string) :=
  match outs with
  | [] => Ok []
  | o :: rest =>
      do w <- emit o;
      do ws <- emit_all rest;
      Ok (w ++ ws)
  end.

(** The files on disk: path to contents. *)
Abbreviation files := (gmap string string).

(** [generate_hdl] for the instance itself, before it descends: the input
    file is read, the output file is written, its path joins
    [debug_files]. *)
Definition generate_hdl_file (fs : files) (i : DbgInstance)
    (wt_instance_string : string) (debug_files : list string)
    : outcome (files * DbgInstance * list string) :=
  match fs !! filename i with
  | None => Raise IOError
  | Some text =>
      match locs i with
      | None => Raise AttributeError
      | Some l =>
          let l' := fix_declaration l in
          do outs <- patch_lines i l' wt_instance_string 0 (file_lines text);
          do written <- emit_all outs;
          Ok (<[filename_out i := str_concat written]> fs,
              with_locs i l',
              debug_files ++ [filename_out i])
      end
  end.



(* ===================================================================== *)
(** ** Notions used to state the properties *)
(* ===================================================================== *)

Fixpoint str_forall (P : ascii -> bool) (s : string) : bool :=
  match s with
  | "" => true
  | String c s' => P c && str_forall P s'
  end.

(** The characters ["%d"] prints. *)
Definition digit_or_minus (c : ascii) : bool :=
  Ascii.eqb c "-" || match digit_val c with Some _ => true | None => false end.

(** [py_int] once the spaces and the sign have been read. *)
Definition after_sign (sign : Z) (s : string) : option Z :=
  let '(v, seen, rest) := read_digits 0 false s in
  if seen then
    match skip_spaces rest with
    | "" => Some (sign * v)
    | _ => None
    end
  else None.

Definition sum_Z (l : list Z) : Z := fold_right Z.add 0 l.

(** Every node of the tree holds, as its [port_width], the widths of its
    local nets plus the [port_width]s held by its children. *)
Inductive widths_stored : DbgInstance -> Prop :=
| widths_stored_node (i : DbgInstance) (ws : list Z) :
    Forall2 (fun c w => port_width c = Some w) (sub_instances i) ws ->
    port_width i = Some (sum_widths (local_nets i) + sum_Z ws) ->
    Forall widths_stored (sub_instances i) ->
    widths_stored i.

(** The layout pass run over a flat list of nets. *)
Definition place_nets (nets : list DbgNet) (offset : Z) : list DbgNet * Z :=
  map_accum set_net_pos nets offset.

(** The bits a placed net occupies: from its [vector_pos] down, as many as
    its width. *)
Definition occupies (n : DbgNet) (b : Z) : Prop :=
  exists p, vector_pos n = Some p /\ p - bit_width n < b <= p.

(** The tree of the end-to-end scenario: [top] holds [core0], which holds
    [din_valid] (width 1, appended first) and [dout[7:0]] (width 8). *)
Definition din_valid : DbgNet := mkDbgNet "core0.din_valid" "din_valid" 1 false None.
Definition dout : DbgNet := mkDbgNet "core0.dout[7:0]" "dout[7:0]" 8 true None.
Definition core0 : DbgInstance :=
  mkDbgInstance "core0" "core" "core.v" [din_valid; dout] [] None false 0 None.
Definition scenario_top : DbgInstance :=
  mkDbgInstance "Top" "top" "top.v" [] [core0] None true 0 None.

(** The formula of the specification, to compare the pass with: the
    position of the net of rank [rank] in a vector of [globalWidth] bits,
    counted from the most-significant end. *)
Definition spec_position (globalWidth : Z) (rank : nat) : Z :=
  globalWidth - 1 - Z.of_nat rank.

(** In a Verilog concatenation [{s1, ..., sn}] the first operand holds the
    most-significant bits and the last one the least-significant bits. *)
Definition msb_group (sigs : list string) : option string := head sigs.
Definition lsb_group (sigs : list string) : option string := last sigs.

(** The scenario with one module instantiated twice: [core0] was appended
    first, [core1] second. *)
Definition core1 : DbgInstance :=
  mkDbgInstance "core1" "core" "core.v" [din_valid] [] None false 1 None.
Definition two_cores_top : DbgInstance :=
  mkDbgInstance "Top" "top" "top.v" [] [core0; core1] None true 0 None.

(** [f] occurs in [msg]. *)
Definition occurs_in (f msg : string) : Prop :=
  exists pre post, msg = pre +:+ f +:+ post.

(** A module index in which two files define [core]. *)
Definition two_definitions : list (string * string) :=
  [("core", "rtl/a/core.v"); ("top", "rtl/top.v"); ("core", "rtl/b/core.v")].

(** The declarations of the scenario as the scanner reports them:
    [core.v] declares the scalar [din_valid] and the vector [dout]. *)
Definition scenario_scan (file : string) : list (list string) :=
  if String.eqb file "core.v"
  then [["din_valid"]; ["net_is_a_vector"; "dout"]]
  else [].

(** [top] instantiates [core core0 (...)]. *)
Definition scenario_locate (file mod_type inst_name : string) : option InstLoc :=
  if String.eqb file "top.v" && String.eqb mod_type "top" && String.eqb inst_name "core0"
  then Some (mkInstLoc "core" (3, 3) (3, 14))
  else None.

Definition scenario_setup (paths : list string) : WTSetup :=
  mkWTSetup (Some "rtl") [("top", "top.v"); ("core", "core.v")]
    (Some (mkDbgInstance "Top" "top" "top.v" [] [] None true 0 None))
    "clk" "rst" paths 0 [].

(** [old] does not occur in [s]. *)
Fixpoint absent (old s : string) : bool :=
  match s with
  | "" => true
  | String _ s' => negb (String.prefix old s) && absent old s'
  end.

(** In [p] followed by [old], the first occurrence of [old] is the one
    after [p]. *)
Fixpoint clean_before (old p : string) : bool :=
  match p with
  | "" => true
  | String _ p' => negb (String.prefix old (p +:+ old)) && clean_before old p'
  end.

(** [parts] is what [s.split(old)] gives for [s = old.join(parts)]: the
    occurrences of [old] that a scan from the left finds are the ones
    between the parts. *)
Fixpoint well_split (old : string) (parts : list string) : Prop :=
  match parts with
  | [] => False
  | [p] => absent old p = true
  | p :: rest => clean_before old p = true /\ well_split old rest
  end.

(** The line a line action carries. *)
Definition out_line (o : line_out) : string :=
  match o with
  | Plain s => s
  | DebugBlock line _ _ => line
  end.

(** No anchor of the sub-instance location [il] is on line [n]. *)
Definition off_line (n : Z) (il : InstLoc) : Prop :=
  n <> fst (inst_type_loc il) - 1 /\ n <> fst (inst_port_loc il) - 1.

(** [core.v] of the scenario, and where the locator finds its anchors: the
    module name at line 1, column 8; the port list at line 1, column 13, in
    the 2001 style; the end of the header, where declarations may start, at
    line 1, column 33; [endmodule] at line 3, column 1. *)
Definition core_v : string :=
  "module core (input clk, core_en);" +:+ nl +:+
  "  reg din_valid; reg [7:0] dout;" +:+ nl +:+
  "endmodule" +:+ nl.

Definition core_locs : ItemLocs :=
  mkItemLocs (1, 8) (1, 13, MOD_STYLE_2001) [] (1, 33) (3, 1).

Definition core0_located : DbgInstance :=
  mkDbgInstance "core0" "core" "rtl/core.v" [din_valid; dout] [] (Some 9) false 0
    (Some core_locs).

Definition scenario_files : files := {[ "rtl/core.v" := core_v ]}.


Definition top_locs : ItemLocs :=
  mkItemLocs (1, 8) (1, 12, MOD_STYLE_2001) [mkInstLoc "core" (3, 3) (3, 14)]
    (1, 23) (4, 1).

Definition top_located : DbgInstance :=
  mkDbgInstance "Top" "top" "rtl/top.v" [] [core0_located] (Some 9) true 0
    (Some top_locs).

(** The number of newlines of a text. *)
Definition count_nl (s : string) : Z := str_count nl_char s.

(** The last character of [s] is a newline. *)
Fixpoint ends_nl (s : string) : bool :=
  match s with
  | "" => false
  | String c "" => Ascii.eqb c nl_char
  | String _ s' => ends_nl s'
  end.

(** [add_cr] of [_write_debug_block]. *)
Definition adds_cr (line : string) (col : Z) : bool :=
  match py_index line col with
  | Ok c => negb (Ascii.eqb c nl_char)
  | _ => false
  end.

(** The newlines a line action adds to those of the line it carries: none
    for a line written as it is; for a debug block, the break at the
    column, the two marker lines and the lines of the content, one more
    when the column is not at the newline, the newline of the line itself
    being cut off by [line[col:-1]]. *)
Definition extra_newlines (o : line_out) : Z :=
  match o with
  | Plain _ => 0
  | DebugBlock line col content =>
      3 + count_nl content + (if adds_cr line col then 1 else 0)
      - (if ends_nl line then 1 else 0)
  end.

Definition is_block (o : line_out) : bool :=
  match o with
  | Plain _ => false
  | DebugBlock _ _ _ => true
  end.

(** Line [n], counted from 0, holds none of the anchors. *)
Definition no_anchor (l : ItemLocs) (n : Z) : Prop :=
  n <> fst (module_location l) - 1
  /\ n <> fst (fst (port_location l)) - 1
  /\ n <> fst (declaration_location l) - 1
  /\ n <> fst (endmodule_location l) - 1
  /\ Forall (off_line n) (instance_locations l).

Definition count_blocks (outs : list line_out) : nat :=
  List.length (List.filter is_block outs).

(** The file the patcher writes for [core0]. *)
Definition core_wt0_v : string :=
  "module core_wt0 (" +:+ nl +:+
  "//---WT_DEBUG---" +:+ nl +:+
  "  output [8:0] wt_debug," +:+ nl +:+
  "//---WT_DEBUG---" +:+ nl +:+
  "input clk, core_wt0_en);" +:+ nl +:+
  "  reg din_valid; reg [7:0] dout;" +:+ nl +:+
  nl +:+
  "//---WT_DEBUG---" +:+ nl +:+
  "  assign wt_debug = {dout[7:0]," +:+ nl +:+
  "                     din_valid};" +:+ nl +:+
  "//---WT_DEBUG---" +:+ nl +:+
  "endmodule" +:+ nl.

(** The invariants of the two layout passes, proved by induction on the
    tree. *)

Definition width_step (c : DbgInstance) (acc : Z) : DbgInstance * Z :=
  let '(c', wc) := set_port_widths c in (c', acc + wc).

Definition width_pass_ok (i : DbgInstance) : Prop :=
  snd (set_port_widths i) = sum_widths (all_nets i)
  /\ port_width (fst (set_port_widths i)) = Some (sum_widths (all_nets i))
  /\ widths_stored (fst (set_port_widths i))
  /\ all_nets (fst (set_port_widths i)) = all_nets i.

(** The pass over a tree places the nets as a single pass over the flat
    list of its nets does. *)
Definition position_pass_ok (i : DbgInstance) : Prop :=
  forall offset,
    all_nets (fst (set_vector_pos i offset)) = fst (place_nets (all_nets i) offset)
    /\ snd (set_vector_pos i offset) = snd (place_nets (all_nets i) offset).

(** Every net of the tree is at least one bit wide. *)
Definition widths_positive (i : DbgInstance) : Prop :=
  Forall (fun n => 1 <= bit_width n) (all_nets i).

(* ===================================================================== *)
(** ** wt_setup.py: the module index as sources are added and removed *)
(* ===================================================================== *)






(* ===================================================================== *)
(** ** Notions used to state the further properties *)
(* ===================================================================== *)





(** The tree without what the layout passes and the patcher set: names,
    module types, files, ids and the paths of the nets. *)
Inductive shape : Type :=
| Shape (nm mt fn : string) (top : bool) (id : Z) (nets : list string)
    (subs : list shape).

Fixpoint shape_of (i : DbgInstance) : shape :=
  match i with
  | mkDbgInstance nm mt fn nets subs _ top id _ =>
      Shape nm mt fn top id (map path nets) (map shape_of subs)
  end.










(* ===================================================================== *)
(** * Properties *)
(* ===================================================================== *)

(** ** Strings *)

Lemma append_nil_r (s : string) : s +:+ "" = s.
Proof. induction s as [|c s IH]; simpl; [reflexivity | now rewrite IH]. Qed.

Lemma append_assoc (a b c : string) : (a +:+ b) +:+ c = a +:+ (b +:+ c).
Proof. induction a as [|x a IH]; simpl; [reflexivity | now rewrite IH]. Qed.

Lemma length_append (a b : string) :
  String.length (a +:+ b) = (String.length a + String.length b)%nat.
Proof. induction a as [|x a IH]; simpl; [reflexivity | now rewrite IH]. Qed.

Lemma str_take_drop (n : nat) (s : string) : str_take n s +:+ str_drop n s = s.
Proof.
  revert s; induction n as [|n IH]; intros [|c s]; simpl; try reflexivity.
  now rewrite IH.
Qed.

Lemma str_take_app (a b : string) : str_take (String.length a) (a +:+ b) = a.
Proof. induction a as [|x a IH]; simpl; [now destruct b | now rewrite IH]. Qed.

Lemma str_drop_app (a b : string) : str_drop (String.length a) (a +:+ b) = b.
Proof. induction a as [|x a IH]; simpl; [reflexivity | exact IH]. Qed.

Lemma str_contains_app (c : ascii) (a b : string) :
  str_contains c (a +:+ b) = str_contains c a || str_contains c b.
Proof.
  induction a as [|x a IH]; simpl; [reflexivity |].
  destruct (Ascii.eqb x c); [reflexivity | exact IH].
Qed.

(** [s[1:-1]] of a bracketed string is what stands between the brackets. *)
Lemma py_slice_inside (inside : string) :
  py_slice ("[" +:+ inside +:+ "]") 1 (-1) = inside.
Proof.
  unfold py_slice, slice_bound, slen. simpl String.length.
  rewrite length_append. simpl String.length.
  replace (1 <? 0) with false by reflexivity.
  replace (-1 <? 0) with true by reflexivity.
  set (n := String.length inside).
  replace (Z.max 0 (Z.min (Z.of_nat (S (n + 1))) 1)) with 1 by lia.
  replace (Z.max 0 (Z.min (Z.of_nat (S (n + 1))) (-1 + Z.of_nat (S (n + 1)))))
    with (Z.of_nat (S n)) by lia.
  replace (Z.to_nat (Z.of_nat (S n) - 1)) with n by lia.
  change (Z.to_nat 1) with 1%nat. simpl str_drop.
  apply str_take_app.
Qed.

(** A string without the separator is a single field, and the first
    separator ends the first field. *)
Lemma str_split_none (sep : ascii) (s : string) :
  str_contains sep s = false -> str_split sep s = [s].
Proof.
  induction s as [|c s IH]; simpl; [reflexivity |].
  destruct (Ascii.eqb c sep); [discriminate |].
  intros H. now rewrite (IH H).
Qed.

Lemma str_split_app (sep : ascii) (a b : string) :
  str_contains sep a = false ->
  str_split sep (a +:+ String sep b) = a :: str_split sep b.
Proof.
  induction a as [|c a IH]; simpl.
  - intros _. now rewrite Ascii.eqb_refl.
  - destruct (Ascii.eqb c sep); [discriminate |].
    intros H. now rewrite (IH H).
Qed.

Lemma str_split_nonempty (sep : ascii) (s : string) : str_split sep s <> [].
Proof.
  induction s as [|c s IH]; simpl; [discriminate |].
  destruct (Ascii.eqb c sep); [discriminate |].
  destruct (str_split sep s); [contradiction | discriminate].
Qed.

(** ** The search for the bracketed range *)

Lemma scan_to_close_inside (inside rest : string) :
  str_contains "]" inside = false ->
  str_contains nl_char inside = false ->
  scan_to_close (inside +:+ String "]" rest) = Some inside.
Proof.
  induction inside as [|c s IH]; simpl; [reflexivity |].
  destruct (Ascii.eqb c "]"); [discriminate |].
  destruct (Ascii.eqb c nl_char); [discriminate |].
  intros H1 H2. now rewrite (IH H1 H2).
Qed.

Lemma re_search_range_none (s : string) :
  str_contains "[" s = false -> re_search_range s = None.
Proof.
  induction s as [|c s IH]; simpl; [reflexivity |].
  destruct (Ascii.eqb c "["); [discriminate | exact IH].
Qed.

Lemma re_search_range_first (nm inside rest : string) :
  str_contains "[" nm = false ->
  str_contains "]" inside = false ->
  str_contains nl_char inside = false ->
  re_search_range (nm +:+ "[" +:+ inside +:+ String "]" rest)
  = Some ("[" +:+ inside +:+ "]").
Proof.
  intros Hn H1 H2. induction nm as [|c s IH]; simpl.
  - now rewrite (scan_to_close_inside inside rest H1 H2).
  - simpl in Hn. destruct (Ascii.eqb c "["); [discriminate |]. exact (IH Hn).
Qed.

(** ** Decimal numerals: [int] reads what ["%d"] prints *)

Lemma str_forall_not_contains (P : ascii -> bool) (c : ascii) (s : string) :
  P c = false -> str_forall P s = true -> str_contains c s = false.
Proof.
  intros Hc. induction s as [|d s IH]; simpl; [reflexivity |].
  intros H. apply andb_prop in H as [Hd Hs].
  destruct (Ascii.eqb_spec d c) as [->|_]; [congruence | exact (IH Hs)].
Qed.

Lemma string_of_uint_digits (d : Decimal.uint) :
  str_forall digit_or_minus (NilEmpty.string_of_uint d) = true.
Proof. induction d; simpl; auto. Qed.

Lemma fmt_d_chars (z : Z) : str_forall digit_or_minus (fmt_d z) = true.
Proof.
  unfold fmt_d, NilZero.string_of_int, NilZero.string_of_uint.
  destruct (Z.to_int z) as [d|d]; destruct d; simpl;
    try reflexivity; apply string_of_uint_digits.
Qed.

Lemma fmt_d_no_char (c : ascii) (z : Z) :
  digit_or_minus c = false -> str_contains c (fmt_d z) = false.
Proof. intros H. exact (str_forall_not_contains _ c _ H (fmt_d_chars z)). Qed.

Lemma read_digits_acc (d : Decimal.uint) (acc : positive) :
  read_digits (Z.pos acc) true (NilEmpty.string_of_uint d)
  = (Z.pos (Pos.of_uint_acc d acc), true, "").
Proof.
  revert acc. induction d; intros acc; simpl; try reflexivity;
  unfold digit_val; simpl; rewrite <- IHd; f_equal; lia.
Qed.

Lemma read_digits_uint (d : Decimal.uint) (seen : bool) :
  d <> Decimal.Nil ->
  read_digits 0 seen (NilEmpty.string_of_uint d) = (Z.of_uint d, true, "").
Proof.
  unfold Z.of_uint. revert seen.
  induction d; intros seen Hd; try congruence; simpl; unfold digit_val; simpl;
    try (apply (read_digits_acc d)).
  destruct d; try (apply IHd; discriminate).
  reflexivity.
Qed.

Lemma py_int_digit_first (c : ascii) (s : string) :
  digit_val c <> None ->
  py_int (String c s) = after_sign 1 (String c s)
  /\ py_int (String "-" (String c s)) = after_sign (-1) (String c s).
Proof.
  intros H.
  destruct c as [[] [] [] [] [] [] [] []];
    try (exfalso; apply H; reflexivity); split; reflexivity.
Qed.

Lemma string_of_uint_first (d : Decimal.uint) :
  d <> Decimal.Nil ->
  exists c s, NilEmpty.string_of_uint d = String c s /\ digit_val c <> None.
Proof.
  destruct d; intros H; try congruence; simpl; eexists _, _; split;
    try reflexivity; discriminate.
Qed.

Lemma py_int_uint (d : Decimal.uint) :
  d <> Decimal.Nil ->
  py_int (NilEmpty.string_of_uint d) = Some (Z.of_uint d)
  /\ py_int (String "-" (NilEmpty.string_of_uint d)) = Some (- Z.of_uint d).
Proof.
  intros Hd. destruct (string_of_uint_first d Hd) as (c & s & Hs & Hc).
  pose proof (read_digits_uint d false Hd) as Hr.
  rewrite Hs in *.
  destruct (py_int_digit_first c s Hc) as [-> ->].
  unfold after_sign. rewrite Hr. simpl. split; f_equal; lia.
Qed.

Lemma to_uint_not_nil (p : positive) : Pos.to_uint p <> Decimal.Nil.
Proof.
  intros E. pose proof (DecimalPos.Unsigned.of_to p) as H.
  rewrite E in H. discriminate.
Qed.

Lemma py_int_fmt_d (z : Z) : py_int (fmt_d z) = Some z.
Proof.
  pose proof (DecimalZ.of_to z) as Hz.
  unfold fmt_d. destruct z as [|p|p]; [reflexivity | |];
    simpl Z.to_int in *; unfold NilZero.string_of_int, NilZero.string_of_uint;
    pose proof (to_uint_not_nil p) as Hp;
    destruct (py_int_uint _ Hp) as [H1 H2]; simpl Z.of_int in Hz;
    destruct (Pos.to_uint p) eqn:E; try congruence.
Qed.

(** ** [net_range] and [net_width] *)

Lemma net_range_bracketed (nm inside : string) :
  str_contains "[" nm = false ->
  str_contains "]" inside = false ->
  str_contains nl_char inside = false ->
  net_range (nm +:+ "[" +:+ inside +:+ "]")
  = match str_split ":" inside with
    | [] => Raise IndexError
    | [n0] => do hi <- int n0; do lo <- int n0; Ok (hi, lo)
    | n0 :: n1 :: _ => do hi <- int n0; do lo <- int n1; Ok (hi, lo)
    end.
Proof.
  intros Hn H1 H2. unfold net_range.
  rewrite (re_search_range_first nm inside "" Hn H1 H2).
  now rewrite py_slice_inside.
Qed.

Lemma int_fmt_d (z : Z) : int (fmt_d z) = Ok z.
Proof. unfold int. now rewrite py_int_fmt_d. Qed.

(** C7: for a name without an opening bracket, [name[hi:lo]] has the range
    [(hi, lo)] and the width [|hi - lo| + 1], [name[b]] has the range
    [(b, b)] and the width 1, and the bare name has the range [(0, 0)] and
    the width 1. *)
Theorem net_width_of_range (nm : string) (hi lo b : Z) :
  str_contains "[" nm = false ->
  (net_range (nm +:+ "[" +:+ fmt_d hi +:+ ":" +:+ fmt_d lo +:+ "]") = Ok (hi, lo)
   /\ net_width (nm +:+ "[" +:+ fmt_d hi +:+ ":" +:+ fmt_d lo +:+ "]")
      = Ok (Z.abs (hi - lo) + 1))
  /\ (net_range (nm +:+ "[" +:+ fmt_d b +:+ "]") = Ok (b, b)
      /\ net_width (nm +:+ "[" +:+ fmt_d b +:+ "]") = Ok 1)
  /\ (net_range nm = Ok (0, 0) /\ net_width nm = Ok 1).
Proof.
  intros Hn.
  assert (Hc : forall c z, digit_or_minus c = false -> str_contains c (fmt_d z) = false)
    by (intros; now apply fmt_d_no_char).
  assert (R1 : net_range (nm +:+ "[" +:+ fmt_d hi +:+ ":" +:+ fmt_d lo +:+ "]")
               = Ok (hi, lo)).
  { replace (nm +:+ "[" +:+ fmt_d hi +:+ ":" +:+ fmt_d lo +:+ "]")
      with (nm +:+ "[" +:+ (fmt_d hi +:+ ":" +:+ fmt_d lo) +:+ "]")
      by (now rewrite !append_assoc).
    rewrite net_range_bracketed; try exact Hn;
      try (rewrite !str_contains_app; simpl; rewrite !Hc by reflexivity; reflexivity).
    change (fmt_d hi +:+ ":" +:+ fmt_d lo) with (fmt_d hi +:+ String ":" (fmt_d lo)).
    rewrite str_split_app by (now apply Hc).
    rewrite str_split_none by (now apply Hc).
    now rewrite !int_fmt_d. }
  assert (R2 : net_range (nm +:+ "[" +:+ fmt_d b +:+ "]") = Ok (b, b)).
  { rewrite net_range_bracketed; try exact Hn; try (now apply Hc).
    rewrite str_split_none by (now apply Hc).
    now rewrite !int_fmt_d. }
  assert (R3 : net_range nm = Ok (0, 0)).
  { unfold net_range. now rewrite re_search_range_none. }
  unfold net_width. rewrite R1, R2, R3. simpl.
  repeat split; f_equal; lia.
Qed.

Lemma net_width_of_range_witness :
  str_contains "[" "core0.dout" = false
  /\ net_width ("core0.dout" +:+ "[" +:+ fmt_d 7 +:+ ":" +:+ fmt_d 0 +:+ "]")
     = Ok (Z.abs (7 - 0) + 1).
Proof.
  split; [reflexivity |].
  exact (proj2 (proj1 (net_width_of_range "core0.dout" 7 0 0 eq_refl))).
Defined.

Lemma str_count_app (c : ascii) (a b : string) :
  str_count c (a +:+ b) = str_count c a + str_count c b.
Proof.
  induction a as [|x a IH]; simpl; [reflexivity |].
  rewrite IH. lia.
Qed.

Lemma str_count_none (c : ascii) (s : string) :
  str_contains c s = false -> str_count c s = 0.
Proof.
  induction s as [|x s IH]; simpl; [reflexivity |].
  destruct (Ascii.eqb x c); [discriminate |]. intros H. now rewrite IH.
Qed.

Lemma re_search_range_newline (nm a b : string) :
  str_contains "[" nm = false ->
  str_contains "[" a = false ->
  str_contains "]" a = false ->
  str_contains "[" b = false ->
  re_search_range (nm +:+ "[" +:+ a +:+ nl +:+ b) = None.
Proof.
  intros Hn Ha1 Ha2 Hb.
  change (nl +:+ b) with (String nl_char b).
  assert (Hs : scan_to_close (a +:+ String nl_char b) = None).
  { clear Hn Ha1. induction a as [|c a IH]; [reflexivity |].
    simpl in Ha2 |- *. destruct (Ascii.eqb c "]"); [discriminate |].
    destruct (Ascii.eqb c nl_char); [reflexivity |]. now rewrite (IH Ha2). }
  assert (Hr : re_search_range (a +:+ String nl_char b) = None).
  { apply re_search_range_none. rewrite str_contains_app, Ha1. simpl. exact Hb. }
  induction nm as [|c nm IH]; simpl.
  - rewrite Hs. exact Hr.
  - simpl in Hn. destruct (Ascii.eqb c "["); [discriminate | exact (IH Hn)].
Qed.

(** C10, as the code has it: [net_range] reads the first field between the
    brackets, and the second when a colon follows the first, with [int];
    when [int] does not read one of those, [net_range] and [net_width] raise
    [ValueError]: they neither return nor leave through [util.error], and
    [WTSetup.net], which calls [net_width] unguarded, raises as well.  What
    follows a second colon is not read: [name[hi:lo:rest]] is treated as
    [name[hi:lo]] whatever [rest] holds.  Brackets that enclose a newline
    are not seen as a range: the range is [(0, 0)] and the net is
    accepted. *)
Theorem net_range_non_numeric (nm f0 f1 rest a b : string) :
  str_contains "[" nm = false ->
  (forall c, In c ["["; "]"; ":"; nl_char]%char ->
             str_contains c f0 = false /\ str_contains c f1 = false) ->
  (forall c, In c ["["; "]"; nl_char]%char -> str_contains c rest = false) ->
  str_contains "[" a = false ->
  str_contains "]" a = false ->
  str_contains "[" b = false ->
  (py_int f0 = None ->
     net_range (nm +:+ "[" +:+ f0 +:+ "]") = Raise ValueError
     /\ net_width (nm +:+ "[" +:+ f0 +:+ "]") = Raise ValueError
     /\ net_check (nm +:+ "[" +:+ f0 +:+ "]") = Raise ValueError)
  /\ (py_int f0 = None \/ py_int f1 = None ->
     net_range (nm +:+ "[" +:+ f0 +:+ ":" +:+ f1 +:+ "]") = Raise ValueError
     /\ net_width (nm +:+ "[" +:+ f0 +:+ ":" +:+ f1 +:+ "]") = Raise ValueError
     /\ net_check (nm +:+ "[" +:+ f0 +:+ ":" +:+ f1 +:+ "]") = Raise ValueError)
  /\ (net_range (nm +:+ "[" +:+ f0 +:+ ":" +:+ f1 +:+ ":" +:+ rest +:+ "]")
      = net_range (nm +:+ "[" +:+ f0 +:+ ":" +:+ f1 +:+ "]")
      /\ net_width (nm +:+ "[" +:+ f0 +:+ ":" +:+ f1 +:+ ":" +:+ rest +:+ "]")
         = net_width (nm +:+ "[" +:+ f0 +:+ ":" +:+ f1 +:+ "]")
      /\ net_check (nm +:+ "[" +:+ f0 +:+ ":" +:+ f1 +:+ ":" +:+ rest +:+ "]")
         = net_check (nm +:+ "[" +:+ f0 +:+ ":" +:+ f1 +:+ "]"))
  /\ (net_range (nm +:+ "[" +:+ a +:+ nl +:+ b) = Ok (0, 0)
      /\ net_width (nm +:+ "[" +:+ a +:+ nl +:+ b) = Ok 1
      /\ net_check (nm +:+ "[" +:+ a +:+ nl +:+ b) = Ok tt).
Proof.
  intros Hn Hc Hrest Ha1 Ha2 Hb.
  assert (H0 : forall c, In c ["["; "]"; ":"; nl_char]%char -> str_contains c f0 = false)
    by (intros c Hin; exact (proj1 (Hc c Hin))).
  assert (H1 : forall c, In c ["["; "]"; ":"; nl_char]%char -> str_contains c f1 = false)
    by (intros c Hin; exact (proj2 (Hc c Hin))).
  assert (In0 : forall c, In c ["["; "]"; ":"; nl_char]%char ->
                 str_contains c (f0 +:+ ":" +:+ f1) = false \/ c = ":"%char).
  { intros c Hin. destruct (Ascii.eqb_spec c ":") as [->|Hne]; [now right | left].
    change (f0 +:+ ":" +:+ f1) with (f0 +:+ String ":" f1).
    rewrite str_contains_app, (H0 c Hin). cbn [str_contains orb].
    rewrite (H1 c Hin).
    destruct (Ascii.eqb_spec ":" c) as [<-|_]; [congruence | reflexivity]. }
  assert (In1 : forall c, In c ["["; "]"; nl_char]%char ->
                 str_contains c (f0 +:+ ":" +:+ f1 +:+ ":" +:+ rest) = false).
  { intros c Hin.
    assert (Hin' : In c ["["; "]"; ":"; nl_char]%char) by (cbn in *; tauto).
    assert (Hne : Ascii.eqb ":" c = false).
    { destruct Hin as [<-|[<-|[<-|[]]]]; reflexivity. }
    change (f0 +:+ ":" +:+ f1 +:+ ":" +:+ rest)
      with (f0 +:+ String ":" (f1 +:+ String ":" rest)).
    rewrite str_contains_app, (H0 c Hin'). cbn [str_contains orb]. rewrite Hne.
    rewrite str_contains_app, (H1 c Hin'). cbn [str_contains orb]. rewrite Hne.
    exact (Hrest c Hin). }
  assert (R0 : py_int f0 = None ->
               net_range (nm +:+ "[" +:+ f0 +:+ "]") = Raise ValueError).
  { intros E. rewrite net_range_bracketed; try exact Hn; try (apply H0; simpl; tauto).
    rewrite str_split_none by (apply H0; simpl; tauto).
    unfold int. now rewrite E. }
  assert (R1 : net_range (nm +:+ "[" +:+ f0 +:+ ":" +:+ f1 +:+ "]")
               = do hi <- int f0; do lo <- int f1; Ok (hi, lo)).
  { replace (nm +:+ "[" +:+ f0 +:+ ":" +:+ f1 +:+ "]")
      with (nm +:+ "[" +:+ (f0 +:+ ":" +:+ f1) +:+ "]") by (now rewrite !append_assoc).
    rewrite net_range_bracketed; try exact Hn;
      try (destruct (In0 "]"%char) as [H|H]; [simpl; tauto | exact H | discriminate]);
      try (destruct (In0 nl_char) as [H|H]; [simpl; tauto | exact H | discriminate]).
    change (f0 +:+ ":" +:+ f1) with (f0 +:+ String ":" f1).
    rewrite str_split_app by (apply H0; simpl; tauto).
    now rewrite str_split_none by (apply H1; simpl; tauto). }
  assert (R2 : net_range (nm +:+ "[" +:+ f0 +:+ ":" +:+ f1 +:+ ":" +:+ rest +:+ "]")
               = do hi <- int f0; do lo <- int f1; Ok (hi, lo)).
  { replace (nm +:+ "[" +:+ f0 +:+ ":" +:+ f1 +:+ ":" +:+ rest +:+ "]")
      with (nm +:+ "[" +:+ (f0 +:+ ":" +:+ f1 +:+ ":" +:+ rest) +:+ "]")
      by (now rewrite !append_assoc).
    rewrite net_range_bracketed; try exact Hn; try (apply In1; simpl; tauto).
    change (f0 +:+ ":" +:+ f1 +:+ ":" +:+ rest)
      with (f0 +:+ String ":" (f1 +:+ String ":" rest)).
    rewrite str_split_app by (apply H0; simpl; tauto).
    rewrite str_split_app by (apply H1; simpl; tauto).
    reflexivity. }
  assert (R3 : net_range (nm +:+ "[" +:+ a +:+ nl +:+ b) = Ok (0, 0)).
  { unfold net_range. now rewrite re_search_range_newline. }
  assert (C0 : str_count "[" (nm +:+ "[" +:+ f0 +:+ "]") = 1).
  { rewrite !str_count_app, (str_count_none _ nm Hn).
    rewrite (str_count_none _ f0) by (apply H0; simpl; tauto). reflexivity. }
  assert (C1 : str_count "[" (nm +:+ "[" +:+ f0 +:+ ":" +:+ f1 +:+ "]") = 1).
  { rewrite !str_count_app, (str_count_none _ nm Hn).
    rewrite (str_count_none _ f0) by (apply H0; simpl; tauto).
    rewrite (str_count_none _ f1) by (apply H1; simpl; tauto). reflexivity. }
  assert (C2 : str_count "[" (nm +:+ "[" +:+ f0 +:+ ":" +:+ f1 +:+ ":" +:+ rest +:+ "]")
               = 1).
  { rewrite !str_count_app, (str_count_none _ nm Hn).
    rewrite (str_count_none _ f0) by (apply H0; simpl; tauto).
    rewrite (str_count_none _ f1) by (apply H1; simpl; tauto).
    rewrite (str_count_none _ rest) by (apply Hrest; simpl; tauto). reflexivity. }
  assert (C3 : str_count "[" (nm +:+ "[" +:+ a +:+ nl +:+ b) = 1).
  { rewrite !str_count_app, (str_count_none _ nm Hn), (str_count_none _ a Ha1),
      (str_count_none _ b Hb). reflexivity. }
  unfold net_check, net_width. rewrite C0, C1, C2, C3, R1, R2, R3.
  split; [| split; [| split]].
  - intros E. rewrite (R0 E). simpl. auto.
  - intros E. unfold int. destruct (py_int f0); simpl; [| auto].
    destruct E as [E|E]; [discriminate | rewrite E; simpl; auto].
  - auto.
  - simpl. auto.
Qed.

Lemma net_range_non_numeric_witness :
  net_range ("data" +:+ "[" +:+ "WIDTH-1" +:+ ":" +:+ "0" +:+ "]") = Raise ValueError
  /\ net_width ("data" +:+ "[" +:+ "WIDTH-1" +:+ ":" +:+ "0" +:+ "]") = Raise ValueError
  /\ net_check ("data" +:+ "[" +:+ "WIDTH-1" +:+ ":" +:+ "0" +:+ "]") = Raise ValueError.
Proof.
  refine (proj1 (proj2 (net_range_non_numeric "data" "WIDTH-1" "0" "x" "1" "]"
                          eq_refl _ _ eq_refl eq_refl eq_refl))
            (or_introl eq_refl)).
  - intros c [<-|[<-|[<-|[<-|[]]]]]; split; reflexivity.
  - intros c [<-|[<-|[<-|[]]]]; reflexivity.
Defined.

(** C10, as the specification states it, fails for contents that are not
    decimal integer literals beyond the second field and for brackets that
    enclose a newline: [a[1:2:x]] has the range [(1, 2)], the width 2 and is
    accepted by [WTSetup.net], although [int] does not read [x]; and with a
    newline before the closing bracket the range is [(0, 0)]. *)
Lemma net_range_ignores_later_fields :
  py_int "x" = None
  /\ net_range "a[1:2:x]" = Ok (1, 2)
  /\ net_width "a[1:2:x]" = Ok 2
  /\ net_check "a[1:2:x]" = Ok tt
  /\ net_range ("a[x" +:+ nl +:+ "]") = Ok (0, 0)
  /\ net_check ("a[x" +:+ nl +:+ "]") = Ok tt.
Proof. repeat split. Qed.

(** ** Worked values *)

Example net_width_vec : net_width "data[3:0]" = Ok 4.
Proof. reflexivity. Qed.
Example net_width_rev : net_width "data[0:7]" = Ok 8.
Proof. reflexivity. Qed.
Example net_width_bit : net_width "state[0]" = Ok 1.
Proof. reflexivity. Qed.
Example net_width_bare : net_width "din_valid" = Ok 1.
Proof. reflexivity. Qed.
Example net_width_param : net_width "data[WIDTH-1:0]" = Raise ValueError.
Proof. reflexivity. Qed.
Example replace_all_ex : py_replace "ab" "X" None "abcabab" = "XcXX".
Proof. reflexivity. Qed.
Example replace_first_ex : py_replace "ab" "X" (Some 1%nat) "abcabab" = "Xcabab".
Proof. reflexivity. Qed.
Example replace_overlap_ex : py_replace "aa" "b" None "aaa" = "ba".
Proof. reflexivity. Qed.
Example slice_ex : py_slice "[3:0]" 1 (-1) = "3:0".
Proof. reflexivity. Qed.

(** ** The instance tree *)

Lemma DbgInstance_tree_ind (P : DbgInstance -> Prop) :
  (forall nm mt fn nets subs pw top id lc,
      Forall P subs -> P (mkDbgInstance nm mt fn nets subs pw top id lc)) ->
  forall i, P i.
Proof.
  intros H. fix IH 1. intros [nm mt fn nets subs pw top id lc].
  apply H. induction subs as [|c subs IHs]; constructor; [apply IH | exact IHs].
Qed.

Lemma sum_widths_app (a b : list DbgNet) :
  sum_widths (a ++ b) = sum_widths a + sum_widths b.
Proof. induction a as [|n a IH]; simpl; [reflexivity | rewrite IH; lia]. Qed.

Lemma map_accum_app {A S : Type} (f : A -> S -> A * S) (a b : list A) (s : S) :
  map_accum f (a ++ b) s
  = (fst (map_accum f a s) ++ fst (map_accum f b (snd (map_accum f a s))),
     snd (map_accum f b (snd (map_accum f a s)))).
Proof.
  revert s. induction a as [|x a IH]; intros s; simpl.
  - now destruct (map_accum f b s).
  - destruct (f x s) as [x' s1]. rewrite IH.
    destruct (map_accum f a s1) as [a' s2]; simpl.
    now destruct (map_accum f b s2).
Qed.

Lemma map_accum_cons {A S : Type} (f : A -> S -> A * S) (x : A) (l : list A) (s : S) :
  map_accum f (x :: l) s
  = (fst (f x s) :: fst (map_accum f l (snd (f x s))),
     snd (map_accum f l (snd (f x s)))).
Proof.
  simpl. destruct (f x s) as [x' s1]. simpl. now destruct (map_accum f l s1).
Qed.

(** *** The width pass *)

Lemma set_port_widths_eq (i : DbgInstance) :
  set_port_widths i
  = (mkDbgInstance (iname i) (module_type i) (filename i) (local_nets i)
       (fst (map_accum width_step (sub_instances i) (sum_widths (local_nets i))))
       (Some (snd (map_accum width_step (sub_instances i) (sum_widths (local_nets i)))))
       (is_top i) (inst_id i) (locs i),
     snd (map_accum width_step (sub_instances i) (sum_widths (local_nets i)))).
Proof.
  destruct i as [nm mt fn nets subs pw top id lc]. simpl.
  fold width_step. now destruct (map_accum width_step subs (sum_widths nets)).
Qed.

Lemma all_nets_eq (i : DbgInstance) :
  all_nets i = local_nets i ++ flat_map all_nets (sub_instances i).
Proof. now destruct i. Qed.

Lemma width_pass_children (subs : list DbgInstance) :
  Forall width_pass_ok subs ->
  forall acc,
    snd (map_accum width_step subs acc)
    = acc + sum_Z (map (fun c => sum_widths (all_nets c)) subs)
    /\ Forall2 (fun c w => port_width c = Some w)
         (fst (map_accum width_step subs acc))
         (map (fun c => sum_widths (all_nets c)) subs)
    /\ Forall widths_stored (fst (map_accum width_step subs acc))
    /\ flat_map all_nets (fst (map_accum width_step subs acc))
       = flat_map all_nets subs.
Proof.
  induction 1 as [|c subs (Hw & Hp & Hs & Hn) _ IH]; intros acc.
  - simpl. repeat split; try constructor. lia.
  - rewrite map_accum_cons.
    replace (width_step c acc)
      with (fst (set_port_widths c), acc + snd (set_port_widths c))
      by (unfold width_step; now destruct (set_port_widths c)).
    cbn [fst snd map flat_map sum_Z fold_right].
    rewrite Hw, Hn.
    destruct (IH (acc + sum_widths (all_nets c))) as (I1 & I2 & I3 & I4).
    rewrite I1, I4. fold (sum_Z (map (fun c => sum_widths (all_nets c)) subs)).
    repeat split; try (constructor; assumption). lia.
Qed.

Lemma sum_Z_flat (subs : list DbgInstance) :
  sum_Z (map (fun c => sum_widths (all_nets c)) subs)
  = sum_widths (flat_map all_nets subs).
Proof.
  induction subs as [|c subs IH]; simpl; [reflexivity |].
  rewrite sum_widths_app, IH. reflexivity.
Qed.

Lemma width_pass_all (i : DbgInstance) : width_pass_ok i.
Proof.
  induction i as [nm mt fn nets subs pw top id lc IH] using DbgInstance_tree_ind.
  unfold width_pass_ok. rewrite set_port_widths_eq.
  cbn [fst snd port_width all_nets sub_instances local_nets iname module_type
       filename is_top inst_id locs].
  destruct (width_pass_children subs IH (sum_widths nets)) as (I1 & I2 & I3 & I4).
  rewrite I1, I4, sum_widths_app, <- sum_Z_flat.
  repeat split.
  econstructor; [exact I2 | reflexivity | exact I3].
Qed.

(** C5: the width pass returns, and stores at the root, the sum of the bit
    widths of all the nets of the tree; every node holds the widths of its
    local nets plus the widths stored at its children; the nets are left as
    they were. *)
Theorem set_port_widths_total (root : DbgInstance) :
  snd (set_port_widths root) = sum_widths (all_nets root)
  /\ port_width (fst (set_port_widths root)) = Some (sum_widths (all_nets root))
  /\ widths_stored (fst (set_port_widths root))
  /\ all_nets (fst (set_port_widths root)) = all_nets root.
Proof.
  destruct (width_pass_all root) as (Hreturned & Hstored & Hnodes & Hnets).
  split; [exact Hreturned |].
  split; [exact Hstored |].
  split; [exact Hnodes | exact Hnets].
Qed.

Example scenario_widths :
  snd (set_port_widths scenario_top) = 9
  /\ map port_width (sub_instances (fst (set_port_widths scenario_top))) = [Some 9].
Proof. split; reflexivity. Qed.

(** *** The position pass *)

Lemma set_vector_pos_eq (i : DbgInstance) (offset : Z) :
  set_vector_pos i offset
  = (mkDbgInstance (iname i) (module_type i) (filename i)
       (fst (place_nets (local_nets i) offset))
       (fst (map_accum set_vector_pos (sub_instances i)
               (snd (place_nets (local_nets i) offset))))
       (port_width i) (is_top i) (inst_id i) (locs i),
     snd (map_accum set_vector_pos (sub_instances i)
            (snd (place_nets (local_nets i) offset)))).
Proof.
  destruct i as [nm mt fn nets subs pw top id lc]. unfold place_nets. simpl.
  destruct (map_accum set_net_pos nets offset) as [nets' pos]. simpl.
  change (fun c p => set_vector_pos c p) with set_vector_pos.
  now destruct (map_accum set_vector_pos subs pos).
Qed.

Lemma position_pass_children (subs : list DbgInstance) :
  Forall position_pass_ok subs ->
  forall pos,
    flat_map all_nets (fst (map_accum set_vector_pos subs pos))
    = fst (place_nets (flat_map all_nets subs) pos)
    /\ snd (map_accum set_vector_pos subs pos)
       = snd (place_nets (flat_map all_nets subs) pos).
Proof.
  induction 1 as [|c subs Hc _ IH]; intros pos; [split; reflexivity |].
  rewrite map_accum_cons. cbn [fst snd flat_map].
  destruct (Hc pos) as [H1 H2]. unfold place_nets in *.
  rewrite map_accum_app. cbn [fst snd].
  destruct (IH (snd (set_vector_pos c pos))) as [I1 I2].
  rewrite H1, <- H2, I1, I2. split; reflexivity.
Qed.

Lemma position_pass_all (i : DbgInstance) : position_pass_ok i.
Proof.
  induction i as [nm mt fn nets subs pw top id lc IH] using DbgInstance_tree_ind.
  intros offset. rewrite set_vector_pos_eq.
  cbn [fst snd port_width all_nets sub_instances local_nets iname module_type
       filename is_top inst_id locs].
  destruct (position_pass_children subs IH (snd (place_nets nets offset))) as [I1 I2].
  unfold place_nets in *. rewrite map_accum_app. cbn [fst snd].
  rewrite I1, I2. split; reflexivity.
Qed.

(** What a pass over a flat list does to the net of rank [k]. *)
Lemma place_nets_snd (nets : list DbgNet) (offset : Z) :
  snd (place_nets nets offset) = offset + sum_widths nets.
Proof.
  revert offset. unfold place_nets.
  induction nets as [|n nets IH]; intros offset; [simpl; lia |].
  rewrite map_accum_cons. cbn [fst snd set_net_pos sum_widths fold_right].
  rewrite IH. unfold sum_widths. lia.
Qed.

Lemma place_nets_length (nets : list DbgNet) (offset : Z) :
  List.length (fst (place_nets nets offset)) = List.length nets.
Proof.
  revert offset. unfold place_nets.
  induction nets as [|n nets IH]; intros offset; [reflexivity |].
  rewrite map_accum_cons. cbn [fst snd List.length]. now rewrite IH.
Qed.

Lemma place_nets_lookup (nets : list DbgNet) (offset : Z) (k : nat) (n : DbgNet) :
  nets !! k = Some n ->
  fst (place_nets nets offset) !! k
  = Some (mkDbgNet (path n) (name n) (bit_width n) (has_range n)
            (Some (offset + sum_widths (take (S k) nets) - 1))).
Proof.
  revert offset k. unfold place_nets.
  induction nets as [|m nets IH]; intros offset k Hk; [discriminate |].
  rewrite map_accum_cons. cbn [fst snd set_net_pos].
  destruct k as [|k].
  - injection Hk as ->. simpl. do 3 f_equal. lia.
  - simpl in Hk. cbn [lookup list_lookup]. rewrite (IH _ _ Hk).
    do 3 f_equal. cbn [take sum_widths fold_right]. unfold sum_widths. lia.
Qed.

Lemma sum_widths_take_nonneg (nets : list DbgNet) (k : nat) :
  Forall (fun n => 1 <= bit_width n) nets -> 0 <= sum_widths (take k nets).
Proof.
  intros Hw. revert k. induction Hw as [|n nets Hn _ IH]; intros [|k]; simpl; try lia.
  specialize (IH k). unfold sum_widths in *. lia.
Qed.

Lemma sum_widths_take_mono (nets : list DbgNet) (j k : nat) :
  Forall (fun n => 1 <= bit_width n) nets ->
  (j < k)%nat -> (k <= List.length nets)%nat ->
  sum_widths (take j nets) < sum_widths (take k nets).
Proof.
  intros Hw. revert j k. induction Hw as [|n nets Hn Hw IH]; intros j k Hjk Hk.
  - simpl in Hk. lia.
  - destruct k as [|k]; [lia |]. destruct j as [|j]; simpl in *.
    + pose proof (sum_widths_take_nonneg nets k Hw). unfold sum_widths in *. lia.
    + specialize (IH j k). unfold sum_widths in *. lia.
Qed.

Lemma sum_widths_take_S (nets : list DbgNet) (k : nat) (n : DbgNet) :
  nets !! k = Some n ->
  sum_widths (take (S k) nets) = sum_widths (take k nets) + bit_width n.
Proof.
  revert k. induction nets as [|m nets IH]; intros k Hk; [discriminate |].
  destruct k as [|k].
  - injection Hk as ->. simpl. lia.
  - simpl in Hk. specialize (IH k Hk). cbn [take sum_widths fold_right] in *.
    unfold sum_widths in *. lia.
Qed.

(** Every bit below the total width lies in the block of exactly one net. *)
Lemma block_of_bit (nets : list DbgNet) (b : Z) :
  Forall (fun n => 1 <= bit_width n) nets ->
  0 <= b < sum_widths nets ->
  exists k n, nets !! k = Some n
    /\ sum_widths (take k nets) <= b < sum_widths (take (S k) nets).
Proof.
  intros Hw. revert b. induction Hw as [|n nets Hn Hw IH]; intros b Hb.
  - simpl in Hb. lia.
  - destruct (Z_lt_dec b (bit_width n)) as [Hlt|Hge].
    + exists O, n. simpl. split; [reflexivity | lia].
    + destruct (IH (b - bit_width n)) as (k & m & Hk & Hr).
      { cbn [sum_widths fold_right] in Hb. unfold sum_widths. lia. }
      exists (S k), m. split; [exact Hk |].
      cbn [take sum_widths fold_right] in *. unfold sum_widths in *. lia.
Qed.

Lemma placed_lookup (nets : list DbgNet) (k : nat) (n' : DbgNet) :
  fst (place_nets nets 0) !! k = Some n' ->
  exists n, nets !! k = Some n
    /\ bit_width n' = bit_width n
    /\ vector_pos n' = Some (sum_widths (take (S k) nets) - 1).
Proof.
  intros Hk.
  assert (Hlt : (k < List.length nets)%nat).
  { rewrite <- (place_nets_length nets 0). eapply lookup_lt_Some. exact Hk. }
  destruct (lookup_lt_is_Some_2 nets k Hlt) as [n Hn].
  rewrite (place_nets_lookup nets 0 k n Hn) in Hk. injection Hk as <-.
  exists n. simpl. repeat split; try assumption; try (f_equal; lia).
Qed.

(** C1, as the code has it: the pass started at offset 0 gives the net of
    rank [k] in the depth-first order (local nets, then each sub-instance)
    the position "widths of the nets of rank 0 to [k], minus one", so the
    nets are packed upwards from bit 0 and the first net holds the
    least-significant bits; the end offset is the global width; no two nets
    have the same position; every bit of the vector lies in the block of
    exactly one net.  Widths are at least 1, as [net_width] gives them. *)
Theorem set_vector_pos_layout (root : DbgInstance) :
  Forall (fun n => 1 <= bit_width n) (all_nets root) ->
  let placed := all_nets (fst (set_vector_pos root 0)) in
  let W := snd (set_vector_pos root 0) in
  W = sum_widths (all_nets root)
  /\ W = snd (set_port_widths root)
  /\ List.length placed = List.length (all_nets root)
  /\ (forall k n, all_nets root !! k = Some n ->
        placed !! k
        = Some (mkDbgNet (path n) (name n) (bit_width n) (has_range n)
                  (Some (sum_widths (take (S k) (all_nets root)) - 1))))
  /\ (forall j k n1 n2, placed !! j = Some n1 -> placed !! k = Some n2 ->
        vector_pos n1 = vector_pos n2 -> j = k)
  /\ (forall b, 0 <= b < W ->
        exists k n, placed !! k = Some n /\ occupies n b
          /\ forall k' n', placed !! k' = Some n' -> occupies n' b -> k' = k).
Proof.
  intros Hw placed W.
  destruct (position_pass_all root 0) as [Hp HW].
  fold placed in Hp. fold W in HW. rewrite place_nets_snd in HW.
  set (nets := all_nets root) in *.
  assert (Hlen : List.length placed = List.length nets)
    by (rewrite Hp; apply place_nets_length).
  assert (Hmono : forall j k, (j < k)%nat -> (k <= List.length nets)%nat ->
            sum_widths (take j nets) < sum_widths (take k nets))
    by (intros; now apply sum_widths_take_mono).
  assert (Hblock : forall k n', placed !! k = Some n' -> forall b, occupies n' b ->
            (k < List.length nets)%nat
            /\ sum_widths (take k nets) <= b < sum_widths (take (S k) nets)).
  { intros k n' Hk b (p & Hpos & Hb). rewrite Hp in Hk.
    destruct (placed_lookup nets k n' Hk) as (n & Hn & Hwd & Hv).
    rewrite Hv in Hpos. injection Hpos as <-.
    pose proof (sum_widths_take_S nets k n Hn).
    split; [eapply lookup_lt_Some; exact Hn | lia]. }
  repeat split.
  - lia.
  - rewrite (proj1 (width_pass_all root)). fold nets. lia.
  - exact Hlen.
  - intros k n Hn. rewrite Hp, (place_nets_lookup nets 0 k n Hn).
    repeat f_equal; lia.
  - intros j k n1 n2 H1 H2 Hv. rewrite Hp in H1, H2.
    destruct (placed_lookup nets j n1 H1) as (m1 & Hm1 & _ & V1).
    destruct (placed_lookup nets k n2 H2) as (m2 & Hm2 & _ & V2).
    rewrite V1, V2 in Hv. injection Hv as Hv.
    pose proof (lookup_lt_Some _ _ _ Hm1). pose proof (lookup_lt_Some _ _ _ Hm2).
    destruct (Nat.lt_trichotomy j k) as [Hlt|[Heq|Hgt]]; [| exact Heq |].
    + pose proof (Hmono (S j) (S k)). lia.
    + pose proof (Hmono (S k) (S j)). lia.
  - intros b Hb.
    destruct (block_of_bit nets b Hw) as (k & n & Hn & Hr); [lia |].
    pose proof (sum_widths_take_S nets k n Hn) as HS.
    exists k, (mkDbgNet (path n) (name n) (bit_width n) (has_range n)
                 (Some (0 + sum_widths (take (S k) nets) - 1))).
    split; [rewrite Hp; now apply place_nets_lookup |].
    split; [eexists; split; [reflexivity | simpl; lia] |].
    intros k' n' Hk' Hocc.
    destruct (Hblock k' n' Hk' b Hocc) as [Hlt' Hr'].
    pose proof (lookup_lt_Some _ _ _ Hn) as Hlt.
    destruct (Nat.lt_trichotomy k' k) as [Hl|[Heq|Hg]]; [| exact Heq |].
    + destruct (Nat.eq_dec (S k') k) as [<-|Hne]; [lia |].
      pose proof (Hmono (S k') k). lia.
    + destruct (Nat.eq_dec (S k) k') as [<-|Hne]; [lia |].
      pose proof (Hmono (S k) k'). lia.
Qed.

Lemma set_vector_pos_layout_witness :
  Forall (fun n => 1 <= bit_width n) (all_nets scenario_top)
  /\ snd (set_vector_pos scenario_top 0) = sum_widths (all_nets scenario_top).
Proof.
  assert (H : Forall (fun n => 1 <= bit_width n) (all_nets scenario_top)).
  { repeat constructor; simpl; lia. }
  split; [exact H | exact (proj1 (set_vector_pos_layout scenario_top H))].
Defined.

(** C1, as the specification states it, fails on the scenario it gives:
    [din_valid], of rank 0 in a vector of 9 bits, is placed at bit 0 and
    not at bit 8, and [dout] has its most-significant bit at 8 and not
    at 7. *)
Lemma set_vector_pos_not_msb_first :
  let placed := all_nets (fst (set_vector_pos scenario_top 0)) in
  let W := snd (set_vector_pos scenario_top 0) in
  W = 9
  /\ map name placed = ["din_valid"; "dout[7:0]"]
  /\ map vector_pos placed = [Some 0; Some 8]
  /\ spec_position W 0 = 8
  /\ ~ (forall k n, placed !! k = Some n -> vector_pos n = Some (spec_position W k)).
Proof.
  cbv zeta. repeat split.
  intros H. specialize (H 0%nat _ eq_refl). discriminate H.
Qed.

(** ** The assign statement *)

Lemma assign_sigs_rev (i : DbgInstance) :
  rev (assign_sigs i) = map name (local_nets i) ++ map debug_wire (sub_instances i).
Proof.
  unfold assign_sigs. now rewrite rev_app_distr, <- !map_rev, !rev_involutive.
Qed.

(** C2, as the code has it: the signal list of the assign statement is the
    reverse of the append order, the wires of the sub-instances first, in
    reverse order, then the local nets in reverse order, joined by a comma,
    a newline and 21 spaces.  Read from its last operand back, the
    concatenation is the local nets in their order and then the wires in
    theirs, which is the order in which the position pass hands out the
    bits: the first local net is the least-significant group, where the pass
    places it, and the wire of the last sub-instance is the most-significant
    group. *)
Theorem assign_sigs_order (i : DbgInstance) :
  _get_assign_string i
  = py_join ("," +:+ nl +:+ "                     ") (assign_sigs i)
  /\ assign_sigs i
     = map debug_wire (rev (sub_instances i)) ++ map name (rev (local_nets i))
  /\ rev (assign_sigs i)
     = map name (local_nets i) ++ map debug_wire (sub_instances i)
  /\ (forall n nets offset, local_nets i = n :: nets ->
        lsb_group (assign_sigs i) = Some (name n)
        /\ head (local_nets (fst (set_vector_pos i offset)))
           = Some (mkDbgNet (path n) (name n) (bit_width n) (has_range n)
                     (Some (offset + bit_width n - 1))))
  /\ (forall subs c, sub_instances i = subs ++ [c] ->
        msb_group (assign_sigs i) = Some (debug_wire c)).
Proof.
  split; [reflexivity |]. split; [reflexivity |]. split; [apply assign_sigs_rev |].
  split.
  - intros n nets offset Hn. split.
    + unfold lsb_group, assign_sigs. rewrite Hn. simpl rev.
      rewrite map_app, app_assoc. simpl map. apply last_snoc.
    + rewrite set_vector_pos_eq. cbn [fst local_nets]. rewrite Hn.
      unfold place_nets. rewrite map_accum_cons. reflexivity.
  - intros subs c Hs. unfold msb_group, assign_sigs. rewrite Hs.
    rewrite rev_app_distr. reflexivity.
Qed.

Lemma assign_sigs_order_witness :
  local_nets core0 = [din_valid; dout]
  /\ lsb_group (assign_sigs core0) = Some "din_valid"
  /\ sub_instances two_cores_top = [core0] ++ [core1]
  /\ msb_group (assign_sigs two_cores_top) = Some "core1_wt_debug".
Proof.
  split; [reflexivity |].
  split; [exact (proj1 (proj1 (proj2 (proj2 (proj2 (assign_sigs_order core0))))
                          din_valid [dout] 0 eq_refl)) |].
  split; [reflexivity |].
  exact (proj2 (proj2 (proj2 (proj2 (assign_sigs_order two_cores_top))))
           [core0] core1 eq_refl).
Defined.

(** In the scenario with two cores the assign statement of the top module
    names the bus of [core1] before the bus of [core0]. *)
Example two_cores_assign :
  assign_sigs two_cores_top = ["core1_wt_debug"; "core0_wt_debug"]
  /\ endmodule_content two_cores_top ""
     = "  assign wt_debug = {core1_wt_debug," +:+ nl +:+
       "                     core0_wt_debug};" +:+ nl.
Proof. split; reflexivity. Qed.

(** C2, as the specification states it, fails in its last clause: with the
    local nets [din_valid] then [dout], the most recently added net [dout]
    is the first of the local nets in the concatenation, and the
    least-significant group is [din_valid], the net added first. *)
Lemma assign_lsb_is_first_added :
  local_nets core0 = [din_valid; dout]
  /\ assign_sigs core0 = ["dout[7:0]"; "din_valid"]
  /\ _get_assign_string core0
     = "dout[7:0]," +:+ nl +:+ "                     din_valid"
  /\ lsb_group (assign_sigs core0) = Some (name din_valid)
  /\ lsb_group (assign_sigs core0) <> Some (name dout).
Proof. repeat split. discriminate. Qed.

(** ** The module index *)

Lemma occurs_in_join (sep f : string) (l : list string) :
  In f l -> occurs_in f (py_join sep l).
Proof.
  unfold py_join. induction l as [|x l IH]; intros Hin; [contradiction |].
  destruct Hin as [->|Hin].
  - destruct l as [|y l]; simpl.
    + exists "", "". now rewrite append_nil_r.
    + exists "", (sep +:+ String.concat sep (y :: l)). reflexivity.
  - destruct (IH Hin) as (pre & post & E). destruct l as [|y l]; [contradiction |].
    change (String.concat sep (x :: y :: l))
      with (x +:+ sep +:+ String.concat sep (y :: l)).
    rewrite E. exists (x +:+ sep +:+ pre), post. now rewrite !append_assoc.
Qed.

Lemma occurs_in_context (f pre post s : string) :
  occurs_in f s -> occurs_in f (pre +:+ s +:+ post).
Proof.
  intros (a & b & ->). exists (pre +:+ a), (b +:+ post). now rewrite !append_assoc.
Qed.

Lemma module_matches_In (src : list (string * string)) (mt f : string) :
  In f (module_matches src mt) <-> In (mt, f) src.
Proof.
  unfold module_matches. rewrite in_map_iff. split.
  - intros ([m g] & <- & Hin). apply filter_In in Hin as [Hin Heq].
    simpl in *. apply String.eqb_eq in Heq. now subst.
  - intros Hin. exists (mt, f). split; [reflexivity |].
    apply filter_In. split; [exact Hin | apply String.eqb_refl].
Qed.

Lemma two_files_two_matches (src : list (string * string)) (mt f1 f2 : string) :
  f1 <> f2 -> In (mt, f1) src -> In (mt, f2) src ->
  (1 < List.length (module_matches src mt))%nat.
Proof.
  intros Hne H1 H2. apply module_matches_In in H1, H2.
  destruct (module_matches src mt) as [|a [|b l]]; simpl in *; try lia.
  destruct H1 as [<-|[]], H2 as [<-|[]]. congruence.
Qed.

Lemma _get_fname_single (src : list (string * string)) (mt f : string) :
  module_matches src mt = [f] -> _get_fname src mt = Some f.
Proof.
  unfold module_matches, _get_fname.
  induction src as [|[m g] src IH]; simpl; [discriminate |].
  destruct (String.eqb m mt); simpl; [| exact IH].
  intros E. now injection E as ->.
Qed.

Lemma _module_exists_cases (src : list (string * string)) (mt : string) :
  match module_matches src mt with
  | [] => _module_exists src mt = Ok false
  | [_] => _module_exists src mt = Ok true
  | matches =>
      _module_exists src mt = Exit (multiple_definitions_msg mt matches)
  end.
Proof.
  unfold _module_exists, error.
  now destruct (module_matches src mt) as [|a [|b l]].
Qed.

Lemma multiple_definitions_lists (mt f : string) (matches : list string) :
  In f matches -> occurs_in f (multiple_definitions_msg mt matches).
Proof.
  intros Hin. destruct (occurs_in_join ", " f matches Hin) as (pre & post & E).
  unfold multiple_definitions_msg. rewrite E.
  exists ("Found multiple definitions for module '" +:+ mt +:+ "' " +:+
          "in these files: " +:+ pre),
         (post +:+ ". " +:+
          "You can exclude source files or directories with the 'rm_sources()' " +:+
          "function)").
  now rewrite !append_assoc.
Qed.

Lemma top_resolves (wt : WTSetup) (mt p : string) :
  src_path wt = Some p -> p <> "" ->
  top wt mt =
  match _module_exists (src_modules wt) mt with
  | Ok true =>
      match _get_fname (src_modules wt) mt with
      | Some f => Ok (mkWTSetup (src_path wt) (src_modules wt)
          (Some (mkDbgInstance "Top" mt f [] [] None true 0 None))
          (clk_net wt) (rst_net wt) (net_paths wt) (data_bits wt)
          (debug_files wt))
      | None => Raise TypeError
      end
  | Ok false => Exit (no_top_module_msg mt (src_path wt))
  | Exit m => Exit m
  | Raise e => Raise e
  end.
Proof.
  intros Hp Hne. unfold top. rewrite Hp.
  destruct p as [|c p]; [congruence |]. simpl.
  destruct (_module_exists (src_modules wt) mt) as [[|]| |]; simpl; try reflexivity.
  now destruct (_get_fname (src_modules wt) mt).
Qed.

Lemma new_sub_instance_resolves
    (locate : string -> string -> string -> option InstLoc)
    (src : list (string * string)) (curr : DbgInstance) (nm pth : string)
    (cnt : gmap string Z) (res : InstLoc) :
  locate (filename curr) (module_type curr) nm = Some res ->
  new_sub_instance locate src curr nm pth cnt =
  match _module_exists src (inst_type res) with
  | Ok true =>
      match _get_fname src (inst_type res) with
      | Some f =>
          Ok (mkDbgInstance nm (inst_type res) f [] [] None false
                (default 0 (cnt !! f) + 1 - 1) None,
              <[f := default 0 (cnt !! f) + 1]> cnt)
      | None => Raise TypeError
      end
  | Ok false => Exit (cannot_find_module_msg (inst_type res) nm pth)
  | Exit m => Exit m
  | Raise e => Raise e
  end.
Proof.
  intros Hl. unfold new_sub_instance. rewrite Hl.
  destruct (_module_exists src (inst_type res)) as [[|]| |]; simpl; try reflexivity.
  now destruct (_get_fname src (inst_type res)).
Qed.

(** C6: a module type defined in more than one registered file makes
    [_module_exists], and with it [top] and the creation of a sub-instance,
    leave with the message that lists every file defining the type; a type
    with no definition makes [_module_exists] return [False] and both
    callers leave with their "Cannot find ..." message; the callers go on,
    with the file of the definition, exactly when there is one match. *)
Theorem module_resolution (src : list (string * string)) (mt : string) :
  let matches := module_matches src mt in
  (forall f, In f matches <-> In (mt, f) src)
  /\ (forall f1 f2, f1 <> f2 -> In (mt, f1) src -> In (mt, f2) src ->
        _module_exists src mt = Exit (multiple_definitions_msg mt matches)
        /\ (forall f, In (mt, f) src ->
              occurs_in f (multiple_definitions_msg mt matches))
        /\ (forall wt p, src_modules wt = src -> src_path wt = Some p -> p <> "" ->
              top wt mt = Exit (multiple_definitions_msg mt matches))
        /\ (forall locate curr nm pth cnt res,
              locate (filename curr) (module_type curr) nm = Some res ->
              inst_type res = mt ->
              new_sub_instance locate src curr nm pth cnt
              = Exit (multiple_definitions_msg mt matches)))
  /\ (matches = [] ->
        _module_exists src mt = Ok false
        /\ (forall wt p, src_modules wt = src -> src_path wt = Some p -> p <> "" ->
              top wt mt = Exit (no_top_module_msg mt (src_path wt)))
        /\ (forall locate curr nm pth cnt res,
              locate (filename curr) (module_type curr) nm = Some res ->
              inst_type res = mt ->
              new_sub_instance locate src curr nm pth cnt
              = Exit (cannot_find_module_msg mt nm pth)))
  /\ (_module_exists src mt = Ok true <-> List.length matches = 1%nat)
  /\ (forall wt p, src_modules wt = src -> src_path wt = Some p -> p <> "" ->
        ((exists wt', top wt mt = Ok wt') <-> List.length matches = 1%nat)
        /\ (forall wt', top wt mt = Ok wt' ->
              exists t, top_level wt' = Some t /\ matches = [filename t]
                        /\ module_type t = mt))
  /\ (forall locate curr nm pth cnt res,
        locate (filename curr) (module_type curr) nm = Some res ->
        inst_type res = mt ->
        ((exists r, new_sub_instance locate src curr nm pth cnt = Ok r)
         <-> List.length matches = 1%nat)
        /\ (forall sub cnt', new_sub_instance locate src curr nm pth cnt = Ok (sub, cnt') ->
              matches = [filename sub] /\ module_type sub = mt)).
Proof.
  intros matches. subst matches.
  pose proof (_module_exists_cases src mt) as Hc.
  pose proof (_get_fname_single src mt) as Hf.
  split; [intros f; apply module_matches_In |].
  split.
  { intros f1 f2 Hne H1 H2.
    pose proof (two_files_two_matches src mt f1 f2 Hne H1 H2) as Hlen.
    assert (He : _module_exists src mt
                 = Exit (multiple_definitions_msg mt (module_matches src mt))).
    { destruct (module_matches src mt) as [|a [|b l]]; simpl in Hlen; try lia.
      exact Hc. }
    split; [exact He |]. split; [| split].
    - intros f Hin. apply multiple_definitions_lists. now apply module_matches_In.
    - intros wt p <- Hp Hne'. now rewrite (top_resolves wt mt p Hp Hne'), He.
    - intros locate curr nm pth cnt res Hl <-.
      now rewrite (new_sub_instance_resolves locate src curr nm pth cnt res Hl), He. }
  split.
  { intros E. rewrite E in Hc. split; [exact Hc |]. split.
    - intros wt p <- Hp Hne'. now rewrite (top_resolves wt mt p Hp Hne'), Hc.
    - intros locate curr nm pth cnt res Hl <-.
      now rewrite (new_sub_instance_resolves locate src curr nm pth cnt res Hl), Hc. }
  split.
  { destruct (module_matches src mt) as [|a [|b l]]; rewrite Hc; simpl;
      split; intros H; try discriminate; try reflexivity. }
  split.
  { intros wt p <- Hp Hne'. rewrite (top_resolves wt mt p Hp Hne').
    destruct (module_matches (src_modules wt) mt) as [|a [|b l]] eqn:E;
      rewrite Hc; simpl.
    - split; [split; [intros [? H]; discriminate | discriminate] | discriminate].
    - rewrite (Hf a eq_refl). split.
      + split; [reflexivity | eauto].
      + intros wt' H. injection H as <-. simpl. eauto.
    - split; [split; [intros [? H]; discriminate | discriminate] | discriminate]. }
  intros locate curr nm pth cnt res Hl <-.
  rewrite (new_sub_instance_resolves locate src curr nm pth cnt res Hl).
  destruct (module_matches src (inst_type res)) as [|a [|b l]] eqn:E;
    rewrite Hc; simpl.
  - split; [split; [intros [? H]; discriminate | discriminate] | discriminate].
  - rewrite (Hf a eq_refl). split.
    + split; [reflexivity | eauto].
    + intros sub cnt' H. injection H as <- _. simpl. eauto.
  - split; [split; [intros [? H]; discriminate | discriminate] | discriminate].
Qed.

Lemma module_resolution_witness :
  _module_exists two_definitions "core"
  = Exit (multiple_definitions_msg "core" ["rtl/a/core.v"; "rtl/b/core.v"])
  /\ occurs_in "rtl/a/core.v"
       (multiple_definitions_msg "core" ["rtl/a/core.v"; "rtl/b/core.v"])
  /\ occurs_in "rtl/b/core.v"
       (multiple_definitions_msg "core" ["rtl/a/core.v"; "rtl/b/core.v"]).
Proof.
  assert (Ha : In ("core", "rtl/a/core.v") two_definitions) by (simpl; tauto).
  assert (Hb : In ("core", "rtl/b/core.v") two_definitions) by (simpl; tauto).
  destruct (proj1 (proj2 (module_resolution two_definitions "core"))
              "rtl/a/core.v" "rtl/b/core.v" ltac:(discriminate) Ha Hb)
    as (He & Hocc & _).
  split; [exact He |]. split; [exact (Hocc _ Ha) | exact (Hocc _ Hb)].
Defined.

Example multiple_definitions_text :
  multiple_definitions_msg "core" ["rtl/a/core.v"; "rtl/b/core.v"]
  = "Found multiple definitions for module 'core' in these files: rtl/a/core.v, rtl/b/core.v. You can exclude source files or directories with the 'rm_sources()' function)".
Proof. reflexivity. Qed.

(** ** The net level of the hierarchy builder *)

Lemma str_split_last_contains (sep c : ascii) (s : string) :
  str_contains c (List.last (str_split sep s) "") = true ->
  str_contains c s = true.
Proof.
  induction s as [|d s IH]; simpl; [discriminate |].
  destruct (Ascii.eqb d sep) eqn:E.
  - pose proof (str_split_nonempty sep s) as Hne.
    destruct (str_split sep s) as [|h t] eqn:Es; [congruence |].
    intros H. rewrite (IH H). now destruct (Ascii.eqb d c).
  - pose proof (str_split_nonempty sep s) as Hne.
    destruct (str_split sep s) as [|h t] eqn:Es; [congruence |].
    destruct t as [|h' t]; simpl in *.
    + destruct (Ascii.eqb d c); [reflexivity | exact IH].
    + intros H. rewrite (IH H). now destruct (Ascii.eqb d c).
Qed.

Lemma list_last_split (sep : ascii) (s : string) :
  list_last (str_split sep s) = Ok (List.last (str_split sep s) "").
Proof.
  pose proof (str_split_nonempty sep s).
  now destruct (str_split sep s).
Qed.

Lemma list_first_split (sep : ascii) (s : string) :
  list_first (str_split sep s) = Ok (hd "" (str_split sep s)).
Proof.
  pose proof (str_split_nonempty sep s).
  now destruct (str_split sep s).
Qed.

(** What the net level does, by the declaration found and the path. *)
Lemma add_net_cases (scan : string -> list (list string)) (curr : DbgInstance)
    (path net_string : string) (w : Z) :
  net_width (List.last (str_split "." path) "") = Ok w ->
  add_net scan curr path net_string
  = let net_name := hd "" (str_split "[" net_string) in
    let net_type := check_net_type scan (filename curr) net_name in
    if String.eqb net_type "none"
    then Exit (unable_to_locate_net_msg net_name (filename curr))
    else if negb (str_contains "[" path) && String.eqb net_type "vector"
    then Exit (unable_to_extract_range_msg path)
    else Ok (with_local_nets curr
               (local_nets curr ++
                [mkDbgNet path (List.last (str_split "." path) "") w
                   (String.eqb net_type "vector") None])).
Proof.
  intros Hw. unfold add_net, DbgNet_init, error.
  rewrite list_first_split. cbn [bind].
  destruct (String.eqb _ "none"); [reflexivity |]. cbn [bind].
  rewrite list_last_split. cbn [bind]. rewrite Hw. cbn [bind has_range].
  now destruct (negb (str_contains "[" path) && String.eqb _ "vector").
Qed.

(** C3, as the code has it: at the net level of the build, a net declared
    as a vector fails with the ambiguous-width message when its path holds
    no opening bracket, and is added with [has_range = True] when its
    terminal token carries a range; a net declared as a scalar is added
    with [has_range = False], with or without a range on its terminal token:
    the build has no check of a range on a scalar. *)
Theorem add_net_range_check (scan : string -> list (list string))
    (curr : DbgInstance) (path : string) (w : Z) :
  let token := List.last (str_split "." path) "" in
  let declared := check_net_type scan (filename curr) (hd "" (str_split "[" token)) in
  net_width token = Ok w ->
  (declared = "vector" -> str_contains "[" path = false ->
     add_net scan curr path token = Exit (unable_to_extract_range_msg path))
  /\ (declared = "vector" -> str_contains "[" token = true ->
        add_net scan curr path token
        = Ok (with_local_nets curr
                (local_nets curr ++ [mkDbgNet path token w true None])))
  /\ (declared = "single" ->
        add_net scan curr path token
        = Ok (with_local_nets curr
                (local_nets curr ++ [mkDbgNet path token w false None]))).
Proof.
  intros token declared Hw.
  pose proof (add_net_cases scan curr path token w Hw) as H.
  cbv zeta in H. fold token in H. fold declared in H.
  repeat split.
  - intros Hd Hb. rewrite H, Hd, Hb. reflexivity.
  - intros Hd Hb. rewrite H, Hd.
    rewrite (str_split_last_contains "." "[" path Hb). reflexivity.
  - intros Hd. rewrite H, Hd. cbn. now rewrite andb_false_r.
Qed.

Lemma add_net_range_check_witness :
  net_width "dout[7:0]" = Ok 8
  /\ check_net_type scenario_scan "core.v" "dout" = "vector"
  /\ add_net scenario_scan core0 "core0.dout" "dout"
     = Exit (unable_to_extract_range_msg "core0.dout")
  /\ add_net scenario_scan core0 "core0.dout[7:0]" "dout[7:0]"
     = Ok (with_local_nets core0
             (local_nets core0 ++ [mkDbgNet "core0.dout[7:0]" "dout[7:0]" 8 true None])).
Proof.
  split; [reflexivity |]. split; [reflexivity |]. split.
  - exact (proj1 (add_net_range_check scenario_scan core0 "core0.dout" 1 eq_refl)
             eq_refl eq_refl).
  - exact (proj1 (proj2 (add_net_range_check scenario_scan core0 "core0.dout[7:0]" 8
                           eq_refl)) eq_refl eq_refl).
Defined.

(** C3, as the specification states it, fails in its first case: a range on
    a net declared as a scalar is no error.  [din_valid] is a scalar of
    [core.v]; the path [core0.din_valid[0]] builds, and the net is added
    with the width 1 and [has_range = False]. *)
Lemma range_on_scalar_builds :
  check_net_type scenario_scan "core.v" "din_valid" = "single"
  /\ (exists wt',
        _build_data_structure scenario_scan scenario_locate
          (scenario_setup ["core0.din_valid[0]"]) = Ok wt'
        /\ data_bits wt' = 1
        /\ (all_nets <$> top_level wt')
           = Some [mkDbgNet "core0.din_valid[0]" "din_valid[0]" 1 false (Some 0)])
  /\ _build_data_structure scenario_scan scenario_locate
       (scenario_setup ["core0.din_valid[0]"])
     <> Exit (unable_to_extract_range_msg "core0.din_valid[0]").
Proof.
  split; [reflexivity |]. split.
  - eexists. split; [vm_compute; reflexivity |]. split; reflexivity.
  - vm_compute. discriminate.
Qed.

(** The end-to-end scenario: both nets go to [core0], which gets the id 0;
    the widths are 9 and 9. *)
Example scenario_build :
  exists wt',
    _build_data_structure scenario_scan scenario_locate
      (scenario_setup ["core0.din_valid"; "core0.dout[7:0]"]) = Ok wt'
    /\ data_bits wt' = 9
    /\ (all_nets <$> top_level wt')
       = Some [mkDbgNet "core0.din_valid" "din_valid" 1 false (Some 0);
               mkDbgNet "core0.dout[7:0]" "dout[7:0]" 8 true (Some 8)]
    /\ (map (fun c => (iname c, inst_id c, port_width c)) <$>
          (sub_instances <$> top_level wt'))
       = Some [("core0", 0, Some 9)].
Proof.
  eexists. split; [vm_compute; reflexivity |]. repeat split.
Qed.

Example scenario_vector_without_range :
  _build_data_structure scenario_scan scenario_locate
    (scenario_setup ["core0.dout"])
  = Exit (unable_to_extract_range_msg "core0.dout").
Proof. vm_compute. reflexivity. Qed.

(** ** [str.replace] *)

Lemma prefix_app (old rest : string) : String.prefix old (old +:+ rest) = true.
Proof.
  induction old as [|c old IH]; simpl; [now destruct rest |].
  destruct (ascii_dec c c); [exact IH | congruence].
Qed.

Lemma prefix_app_long (old x rest : string) :
  (String.length old <= String.length x)%nat ->
  String.prefix old (x +:+ rest) = String.prefix old x.
Proof.
  revert x. induction old as [|c old IH]; intros x Hl; simpl.
  - now destruct x, rest.
  - destruct x as [|d x]; simpl in *; [lia |].
    destruct (ascii_dec c d); [apply IH; lia | reflexivity].
Qed.

Lemma replace_scan_skip (old new : string) (count : option nat) (x rest : string) :
  replace_scan old new count (String.length x) (x +:+ rest)
  = replace_scan old new count 0 rest.
Proof.
  induction x as [|c x IH]; simpl; [reflexivity | exact IH].
Qed.

Lemma replace_scan_done (old new : string) (s : string) :
  replace_scan old new (Some 0%nat) 0 s = s.
Proof. now destruct s. Qed.

Lemma replace_scan_absent (old new : string) (count : option nat) (s : string) :
  absent old s = true -> replace_scan old new count 0 s = s.
Proof.
  induction s as [|c s IH]; [reflexivity |].
  intros H. cbn [absent] in H. apply andb_prop in H as [Hp Ha].
  apply negb_true_iff in Hp. cbn [replace_scan].
  destruct count as [[|n]|]; [reflexivity | |]; rewrite Hp, (IH Ha); reflexivity.
Qed.

Lemma replace_scan_first (old new : string) (count : option nat) (p rest : string) :
  old <> "" -> count <> Some 0%nat ->
  clean_before old p = true ->
  replace_scan old new count 0 (p +:+ old +:+ rest)
  = p +:+ new +:+ replace_scan old new (count_down count) 0 rest.
Proof.
  intros Hold Hc. induction p as [|d p IH]; intros Hp.
  - destruct old as [|c old]; [congruence |].
    change ("" +:+ String c old +:+ rest) with (String c (old +:+ rest)).
    cbn [replace_scan].
    change (String c (old +:+ rest)) with (String c old +:+ rest).
    rewrite prefix_app.
    replace (String.length (String c old) - 1)%nat with (String.length old)
      by (simpl; lia).
    rewrite replace_scan_skip.
    destruct count as [[|n]|]; [congruence | reflexivity | reflexivity].
  - cbn [clean_before] in Hp. apply andb_prop in Hp as [Hp Hq].
    apply negb_true_iff in Hp.
    change (String d p +:+ old +:+ rest) with (String d (p +:+ old +:+ rest)).
    cbn [replace_scan].
    change (String d (p +:+ old +:+ rest)) with (String d p +:+ old +:+ rest).
    rewrite <- append_assoc, prefix_app_long, Hp
      by (rewrite length_append; lia).
    rewrite append_assoc, (IH Hq).
    destruct count as [[|n]|]; [congruence | reflexivity | reflexivity].
Qed.

Lemma py_replace_nonempty (old new : string) (count : option nat) (s : string) :
  old <> "" -> py_replace old new count s = replace_scan old new count 0 s.
Proof. destruct old; [congruence | reflexivity]. Qed.

Lemma py_join_cons2 (sep p q : string) (rest : list string) :
  py_join sep (p :: q :: rest) = p +:+ sep +:+ py_join sep (q :: rest).
Proof. reflexivity. Qed.

(** [s.replace(old, new)] is [new.join(s.split(old))]. *)
Lemma py_replace_all_join (old new : string) (parts : list string) :
  old <> "" -> well_split old parts ->
  py_replace old new None (py_join old parts) = py_join new parts.
Proof.
  intros Hold. rewrite py_replace_nonempty by exact Hold.
  induction parts as [|p parts IH]; [contradiction |].
  destruct parts as [|q parts].
  - intros H. now apply replace_scan_absent.
  - intros [Hp Hrest]. rewrite !py_join_cons2.
    rewrite replace_scan_first by (congruence || assumption).
    cbn [count_down]. now rewrite (IH Hrest).
Qed.

(** [s.replace(old, new, 1)] changes the first occurrence only. *)
Lemma py_replace_first_join (old new p : string) (parts : list string) :
  old <> "" -> clean_before old p = true ->
  py_replace old new (Some 1%nat) (p +:+ old +:+ py_join old parts)
  = p +:+ new +:+ py_join old parts.
Proof.
  intros Hold Hp. rewrite py_replace_nonempty by exact Hold.
  rewrite replace_scan_first by (congruence || assumption).
  cbn [count_down]. now rewrite replace_scan_done.
Qed.

(** ** The patcher: one line *)

Lemma scan_instances_skip (subs : list DbgInstance) (pre rest : list InstLoc)
    (j : nat) (n : Z) (s : string) :
  Forall (off_line n) pre ->
  scan_instances subs j (pre ++ rest) n s
  = scan_instances subs (j + List.length pre) rest n s.
Proof.
  intros H. revert j. induction H as [|il pre [H1 H2] _ IH]; intros j.
  - simpl. now rewrite Nat.add_0_r.
  - cbn [app scan_instances List.length].
    destruct (Z.eqb_spec n (fst (inst_type_loc il) - 1)); [contradiction |].
    destruct (Z.eqb_spec n (fst (inst_port_loc il) - 1)); [contradiction |].
    rewrite IH. f_equal. lia.
Qed.

Lemma scan_instances_none (subs : list DbgInstance) (ilocs : list InstLoc)
    (j : nat) (n : Z) (s : string) :
  Forall (off_line n) ilocs -> scan_instances subs j ilocs n s = Ok None.
Proof.
  intros H. rewrite <- (app_nil_r ilocs). now rewrite scan_instances_skip.
Qed.

(** The instance-type line: the line carried on is the input line with the
    first occurrence of the child's module type renamed. *)
Lemma scan_instances_type_line (subs : list DbgInstance) (pre post : list InstLoc)
    (il : InstLoc) (sub : DbgInstance) (n : Z) (s : string) :
  Forall (off_line n) pre ->
  n = fst (inst_type_loc il) - 1 ->
  nth_error subs (List.length pre) = Some sub ->
  exists out,
    scan_instances subs 0 (pre ++ il :: post) n s = Ok (Some out)
    /\ out_line out
       = py_replace (module_type sub) (module_type sub +:+ wt_suffix (inst_id sub))
           (Some 1%nat) s.
Proof.
  intros Hpre Hn Hsub. rewrite scan_instances_skip by exact Hpre.
  cbn [scan_instances Nat.add]. rewrite <- Hn, Z.eqb_refl.
  unfold nth_sub. rewrite Hsub. cbn [bind].
  destruct (n =? fst (inst_port_loc il) - 1); eexists; split; reflexivity.
Qed.

(** The module-header line of an instance that is not the top: the line
    carried on is the input line with every occurrence of the module type
    renamed. *)
Lemma process_line_header (i : DbgInstance) (l : ItemLocs) (w : string) (n : Z)
    (s : string) :
  Forall (off_line n) (instance_locations l) ->
  n = fst (module_location l) - 1 ->
  is_top i = false ->
  port_width i <> None ->
  exists out,
    process_line i l w n s = Ok out
    /\ out_line out
       = py_replace (module_type i) (module_type i +:+ wt_suffix (inst_id i)) None s.
Proof.
  intros Hoff Hn Htop Hpw. unfold process_line.
  rewrite (scan_instances_none _ _ _ _ _ Hoff). cbn [bind].
  destruct (port_location l) as [[port_line port_col] style].
  rewrite <- Hn, Z.eqb_refl, Htop.
  destruct (n =? port_line - 1).
  - unfold port_content. rewrite Htop.
    destruct (port_width i) as [pw|]; [| congruence].
    destruct style; cbn [width_msb bind]; eexists; split; reflexivity.
  - eexists; split; reflexivity.
Qed.

(** C9: on the module-header line of an instance that is not the top, every
    occurrence of the module type is followed by the variant suffix; on the
    line of a child's instance type only the first occurrence of the child's
    module type is, and the later ones stay.  The occurrences are the ones a
    scan from the left finds: the line is the parts joined by the module
    type. *)
Theorem rename_all_on_header_first_on_instance :
  (forall (i : DbgInstance) (l : ItemLocs) (w : string) (n : Z) (parts : list string),
      module_type i <> "" ->
      well_split (module_type i) parts ->
      is_top i = false ->
      port_width i <> None ->
      n = fst (module_location l) - 1 ->
      Forall (off_line n) (instance_locations l) ->
      exists out,
        process_line i l w n (py_join (module_type i) parts) = Ok out
        /\ out_line out = py_join (module_type i +:+ wt_suffix (inst_id i)) parts)
  /\ (forall (i : DbgInstance) (l : ItemLocs) (w : string) (n : Z)
        (pre post : list InstLoc) (il : InstLoc) (sub : DbgInstance)
        (p : string) (rest : list string),
      instance_locations l = pre ++ il :: post ->
      Forall (off_line n) pre ->
      n = fst (inst_type_loc il) - 1 ->
      nth_error (sub_instances i) (List.length pre) = Some sub ->
      module_type sub <> "" ->
      clean_before (module_type sub) p = true ->
      exists out,
        process_line i l w n
          (p +:+ module_type sub +:+ py_join (module_type sub) rest) = Ok out
        /\ out_line out
           = p +:+ (module_type sub +:+ wt_suffix (inst_id sub))
               +:+ py_join (module_type sub) rest).
Proof.
  split.
  - intros i l w n parts Hne Hparts Htop Hpw Hn Hoff.
    destruct (process_line_header i l w n (py_join (module_type i) parts)
                Hoff Hn Htop Hpw) as (out & Ho & Hl).
    exists out. split; [exact Ho |].
    rewrite Hl. now apply py_replace_all_join.
  - intros i l w n pre post il sub p rest Hl Hpre Hn Hsub Hne Hp.
    destruct (scan_instances_type_line (sub_instances i) pre post il sub n
                (p +:+ module_type sub +:+ py_join (module_type sub) rest)
                Hpre Hn Hsub) as (out & Ho & Hout).
    exists out. split.
    + unfold process_line. rewrite Hl, Ho. reflexivity.
    + rewrite Hout. now apply py_replace_first_join.
Qed.

Lemma rename_all_on_header_first_on_instance_witness :
  (exists out,
     process_line core0_located core_locs "" 0
       ("module core (input clk, core_en);" +:+ nl) = Ok out
     /\ out_line out = "module core_wt0 (input clk, core_wt0_en);" +:+ nl)
  /\ (exists out,
        process_line top_located top_locs "" 2
          ("  core core0 (.clk(clk), .core_en(en));" +:+ nl) = Ok out
        /\ out_line out = "  core_wt0 core0 (.clk(clk), .core_en(en));" +:+ nl).
Proof.
  split.
  - refine (proj1 rename_all_on_header_first_on_instance core0_located core_locs "" 0
              ["module "; " (input clk, "; "_en);" +:+ nl] _ _ eq_refl _ eq_refl _).
    + discriminate.
    + repeat split.
    + discriminate.
    + constructor.
  - refine (proj2 rename_all_on_header_first_on_instance top_located top_locs "" 2
              [] [] (mkInstLoc "core" (3, 3) (3, 14)) core0_located
              "  " [" "; "0 (.clk(clk), ."; "_en(en));" +:+ nl]
              eq_refl _ eq_refl eq_refl _ eq_refl).
    + constructor.
    + discriminate.
Defined.

(** C8: a declaration point on the line of the port list is moved to
    column 0 of the next line, any other one is left as it is, no other
    anchor changes, and the loop over the lines runs with the result. *)
Theorem declaration_point_normalized (l : ItemLocs) :
  (fst (fst (port_location l)) = fst (declaration_location l) ->
     declaration_location (fix_declaration l)
     = (fst (declaration_location l) + 1, 0))
  /\ (fst (fst (port_location l)) <> fst (declaration_location l) ->
        declaration_location (fix_declaration l) = declaration_location l)
  /\ (module_location (fix_declaration l) = module_location l
      /\ port_location (fix_declaration l) = port_location l
      /\ instance_locations (fix_declaration l) = instance_locations l
      /\ endmodule_location (fix_declaration l) = endmodule_location l)
  /\ (forall (fs : files) (i : DbgInstance) (w text : string) (dbg : list string),
        fs !! filename i = Some text ->
        locs i = Some l ->
        generate_hdl_file fs i w dbg
        = bind (patch_lines i (fix_declaration l) w 0 (file_lines text))
            (fun outs =>
               bind (emit_all outs)
                 (fun written =>
                    Ok (<[filename_out i := str_concat written]> fs,
                        with_locs i (fix_declaration l),
                        dbg ++ [filename_out i])))).
Proof.
  unfold fix_declaration.
  destruct (Z.eqb_spec (fst (fst (port_location l))) (fst (declaration_location l)))
    as [E|E].
  - repeat split; try reflexivity; try congruence.
    intros fs i w text dbg Hf Hl. unfold generate_hdl_file, fix_declaration.
    rewrite Hf, Hl. apply Z.eqb_eq in E. now rewrite E.
  - repeat split; try reflexivity; try congruence.
    intros fs i w text dbg Hf Hl. unfold generate_hdl_file, fix_declaration.
    rewrite Hf, Hl. apply Z.eqb_neq in E. now rewrite E.
Qed.

Lemma declaration_point_normalized_witness :
  fst (fst (port_location core_locs)) = fst (declaration_location core_locs)
  /\ declaration_location (fix_declaration core_locs) = (2, 0).
Proof.
  split; [reflexivity |].
  exact (proj1 (declaration_point_normalized core_locs) eq_refl).
Defined.

(** With the header of [top.v] on one line, the wires of the sub-instances
    are declared at the start of line 2. *)
Example top_declaration_block :
  process_line top_located (fix_declaration top_locs) "" 1 ("  wire en;" +:+ nl)
  = Ok (DebugBlock ("  wire en;" +:+ nl) 0
          ("  wire [8:0] wt_debug;" +:+ nl +:+ "  wire [8:0] core0_wt_debug;" +:+ nl)).
Proof. reflexivity. Qed.

(** ** The output path *)

Lemma has_sep_app (a b : string) : has_sep (a +:+ b) = has_sep a || has_sep b.
Proof.
  induction a as [|c a IH]; simpl; [reflexivity |].
  rewrite IH. now rewrite orb_assoc.
Qed.

Lemma last_component_no_sep (p : string) : has_sep (last_component p) = false.
Proof.
  induction p as [|c p IH]; [reflexivity |].
  cbn [last_component]. destruct (is_sep c || has_sep p) eqn:E; [exact IH |].
  exact E.
Qed.

Lemma last_component_id (p : string) : has_sep p = false -> last_component p = p.
Proof.
  destruct p as [|c p]; [reflexivity |].
  cbn [last_component has_sep]. now intros ->.
Qed.

Lemma basename_no_sep (p : string) : has_sep (basename p) = false.
Proof. apply last_component_no_sep. Qed.

Lemma basename_output (x : string) :
  has_sep x = false -> basename (OUTPUT_DIR +:+ x) = x.
Proof.
  intros Hx. unfold basename, splitdrive, OUTPUT_DIR.
  destruct (1 <? slen ("output/" +:+ x)); cbn; rewrite ?Hx; cbn;
    now apply last_component_id.
Qed.

Lemma splitext_app (p : string) : fst (splitext p) +:+ snd (splitext p) = p.
Proof.
  unfold splitext.
  destruct (_ <? _); [| apply append_nil_r].
  destruct (all_dots _); [apply append_nil_r | apply str_take_drop].
Qed.

Lemma wt_suffix_chars (id : Z) (c : ascii) :
  digit_or_minus c = false -> Ascii.eqb c "_" = false ->
  Ascii.eqb c "w" = false -> Ascii.eqb c "t" = false ->
  str_contains c (wt_suffix id) = false.
Proof.
  intros Hd H1 H2 H3. unfold wt_suffix. rewrite str_contains_app.
  rewrite (fmt_d_no_char c id Hd). cbn [str_contains String.append].
  rewrite (Ascii.eqb_sym "_" c), (Ascii.eqb_sym "w" c), (Ascii.eqb_sym "t" c).
  now rewrite H1, H2, H3.
Qed.

Lemma has_sep_contains (s : string) :
  str_contains "/" s = false -> str_contains "\" s = false -> has_sep s = false.
Proof.
  induction s as [|c s IH]; [reflexivity |]. cbn [str_contains has_sep].
  unfold is_sep.
  destruct (Ascii.eqb c "/"); [discriminate |].
  destruct (Ascii.eqb c "\"); [discriminate |]. exact IH.
Qed.

Lemma wt_suffix_no_sep (id : Z) : has_sep (wt_suffix id) = false.
Proof. apply has_sep_contains; now apply wt_suffix_chars. Qed.

Lemma wt_suffix_length (id : Z) : (3 <= String.length (wt_suffix id))%nat.
Proof. unfold wt_suffix. rewrite length_append. simpl. lia. Qed.

(** The file written has another base name than the file read. *)
Lemma filename_out_fresh (i : DbgInstance) :
  basename (filename_out i) <> basename (filename i)
  /\ filename_out i <> filename i.
Proof.
  assert (H : basename (filename_out i) <> basename (filename i)).
  { unfold filename_out.
    pose proof (splitext_app (basename (filename i))) as Hb.
    pose proof (basename_no_sep (filename i)) as Hs.
    destruct (splitext (basename (filename i))) as [fname ext]. cbn [fst snd] in Hb.
    rewrite <- Hb in Hs. rewrite has_sep_app in Hs.
    apply orb_false_elim in Hs as [Hf He].
    rewrite basename_output
      by (now rewrite !has_sep_app, Hf, He, wt_suffix_no_sep).
    rewrite <- Hb. intros E. apply (f_equal String.length) in E.
    rewrite !length_append in E. pose proof (wt_suffix_length (inst_id i)). lia. }
  split; [exact H | intros E; now rewrite E in H].
Qed.

(** ** Counting newlines *)

Lemma count_nl_app (a b : string) : count_nl (a +:+ b) = count_nl a + count_nl b.
Proof. apply str_count_app. Qed.

Lemma file_lines_concat (s : string) : str_concat (file_lines s) = s.
Proof.
  induction s as [|c s IH]; [reflexivity |]. cbn [file_lines].
  destruct (Ascii.eqb c nl_char).
  - cbn [str_concat fold_right]. fold (str_concat (file_lines s)). now rewrite IH.
  - destruct (file_lines s) as [|h t].
    + simpl in IH. subst s. reflexivity.
    + cbn [str_concat fold_right] in *. rewrite <- IH. reflexivity.
Qed.

Lemma str_concat_app (a b : list string) :
  str_concat (a ++ b) = str_concat a +:+ str_concat b.
Proof.
  induction a as [|x a IH]; [reflexivity |].
  cbn [app str_concat fold_right]. fold (str_concat (a ++ b)). fold (str_concat a).
  now rewrite IH, append_assoc.
Qed.

Lemma count_nl_lines (lines : list string) :
  count_nl (str_concat lines) = sum_Z (map count_nl lines).
Proof.
  induction lines as [|x lines IH]; [reflexivity |].
  cbn [str_concat fold_right map sum_Z]. fold (str_concat lines).
  fold (sum_Z (map count_nl lines)). now rewrite count_nl_app, IH.
Qed.

(** A rename adds no newline. *)
Lemma prefix_split (old s : string) :
  String.prefix old s = true -> exists rest, s = old +:+ rest.
Proof.
  revert s. induction old as [|c old IH]; intros s H.
  - exists s. reflexivity.
  - destruct s as [|d s]; [discriminate |]. simpl in H.
    destruct (ascii_dec c d) as [->|]; [| discriminate].
    destruct (IH s H) as [rest ->]. now exists rest.
Qed.

Lemma replace_empty_count (sfx : string) (count : option nat) (s : string) :
  count_nl sfx = 0 -> count_nl (replace_empty sfx count s) = count_nl s.
Proof.
  intros H0. revert count. induction s as [|c s IH]; intros count.
  - destruct count as [[|n]|]; simpl; auto.
  - destruct count as [[|n]|]; cbn [replace_empty]; try reflexivity;
      rewrite count_nl_app, H0; unfold count_nl in *; cbn [str_count];
      rewrite IH; lia.
Qed.

Lemma replace_scan_count (d : ascii) (old' sfx : string) (n : nat) :
  let old := String d old' in
  count_nl sfx = 0 ->
  forall (s : string) (count : option nat),
    (String.length s <= n)%nat ->
    count_nl (replace_scan old (old +:+ sfx) count 0 s) = count_nl s.
Proof.
  intros old H0. induction n as [|n IH]; intros s count Hlen.
  - destruct s; [reflexivity | simpl in Hlen; lia].
  - destruct s as [|c s]; [reflexivity |]. cbn [replace_scan].
    assert (Hplain : count_nl (String c (replace_scan old (old +:+ sfx) count 0 s))
                     = count_nl (String c s)).
    { unfold count_nl in *. cbn [str_count]. rewrite (IH s) by (simpl in Hlen; lia).
      reflexivity. }
    assert (Hmatch : String.prefix old (String c s) = true ->
              count_nl ((old +:+ sfx) +:+
                        replace_scan old (old +:+ sfx) (count_down count)
                          (String.length old - 1) s)
              = count_nl (String c s)).
    { intros E. destruct (prefix_split _ _ E) as [rest Hr].
      unfold old in Hr. injection Hr as Hc Hs. subst c s.
      replace (String.length old - 1)%nat with (String.length old')
        by (unfold old; simpl; lia).
      rewrite replace_scan_skip, !count_nl_app.
      rewrite IH by (simpl in Hlen; rewrite length_append in Hlen; lia).
      change (String d (old' +:+ rest)) with (old +:+ rest).
      rewrite count_nl_app. lia. }
    destruct count as [[|k]|]; [reflexivity | |];
      destruct (String.prefix old (String c s)); auto.
Qed.

Lemma py_replace_count (old sfx : string) (count : option nat) (s : string) :
  count_nl sfx = 0 ->
  count_nl (py_replace old (old +:+ sfx) count s) = count_nl s.
Proof.
  intros H0. destruct old as [|c old].
  - apply replace_empty_count. exact H0.
  - rewrite py_replace_nonempty by discriminate.
    now apply (replace_scan_count c old sfx (String.length s)).
Qed.

Lemma wt_suffix_count (id : Z) : count_nl (wt_suffix id) = 0.
Proof. apply str_count_none. now apply wt_suffix_chars. Qed.

(** ** The debug block *)

Lemma str_take_take_drop (a b : nat) (s : string) :
  str_take a s +:+ str_take b (str_drop a s) = str_take (a + b) s.
Proof.
  revert s. induction a as [|a IH]; intros s; [reflexivity |].
  destruct s as [|c s]; [now destruct b |].
  cbn [str_take str_drop Nat.add String.append]. now rewrite IH.
Qed.

Lemma count_nl_init (s : string) :
  count_nl (str_take (String.length s - 1) s) + (if ends_nl s then 1 else 0)
  = count_nl s.
Proof.
  induction s as [|c s IH]; [reflexivity |].
  destruct s as [|d s].
  - unfold count_nl. simpl. destruct (Ascii.eqb c nl_char); reflexivity.
  - change (ends_nl (String c (String d s))) with (ends_nl (String d s)).
    replace (String.length (String c (String d s)) - 1)%nat
      with (S (String.length (String d s) - 1)) by (simpl; lia).
    unfold count_nl in *. cbn [str_take str_count]. cbn [str_count] in IH. lia.
Qed.

(** The two slices of [_write_debug_block] are the line without its last
    character. *)
Lemma slices_around (line : string) (col : Z) (c : ascii) :
  py_index line col = Ok c ->
  py_slice line 0 col +:+ py_slice line col (-1)
  = str_take (String.length line - 1) line.
Proof.
  unfold py_index, py_slice, slice_bound, slen.
  set (len := String.length line).
  intros H.
  destruct ((0 <=? (if col <? 0 then col + Z.of_nat len else col))
            && ((if col <? 0 then col + Z.of_nat len else col) <? Z.of_nat len))
    eqn:E; [| discriminate].
  clear H. apply andb_prop in E as [E1 E2].
  apply Z.leb_le in E1. apply Z.ltb_lt in E2.
  replace (0 <? 0) with false by reflexivity.
  replace (-1 <? 0) with true by reflexivity.
  set (j := if col <? 0 then col + Z.of_nat len else col) in *.
  replace (Z.max 0 (Z.min (Z.of_nat len) 0)) with 0 by lia.
  replace (Z.max 0 (Z.min (Z.of_nat len) j)) with j by lia.
  replace (Z.max 0 (Z.min (Z.of_nat len) (-1 + Z.of_nat len)))
    with (Z.of_nat len - 1) by lia.
  change (Z.to_nat 0) with 0%nat. cbn [str_drop].
  replace (j - 0) with j by lia.
  rewrite str_take_take_drop. f_equal. lia.
Qed.

Lemma emit_count (o : line_out) (chunks : list string) :
  emit o = Ok chunks ->
  count_nl (str_concat chunks) = count_nl (out_line o) + extra_newlines o.
Proof.
  destruct o as [s | line col content]; cbn [emit out_line extra_newlines].
  - intros H. injection H as <-. cbn [str_concat fold_right].
    rewrite append_nil_r. lia.
  - unfold _write_debug_block, adds_cr.
    set (m1 := nl +:+ debug_marker +:+ nl). set (m2 := debug_marker +:+ nl).
    destruct (py_index line col) as [c| |] eqn:E; cbn [bind]; try discriminate.
    intros H. injection H as <-.
    pose proof (slices_around line col c E) as Hs.
    pose proof (count_nl_init line) as Hi. rewrite <- Hs, count_nl_app in Hi.
    rewrite count_nl_lines. cbn [app map sum_Z fold_right].
    assert (M1 : count_nl m1 = 2) by reflexivity.
    assert (M2 : count_nl m2 = 1) by reflexivity.
    assert (M3 : count_nl nl = 1) by reflexivity.
    clearbody m1 m2.
    destruct (negb (Ascii.eqb c nl_char)); cbn [app map sum_Z fold_right]; lia.
Qed.

(** ** The loop over the lines *)

Lemma scan_instances_count (subs : list DbgInstance) (ilocs : list InstLoc)
    (j : nat) (n : Z) (s : string) (out : line_out) :
  scan_instances subs j ilocs n s = Ok (Some out) ->
  count_nl (out_line out) = count_nl s.
Proof.
  revert j. induction ilocs as [|il ilocs IH]; intros j; [discriminate |].
  cbn [scan_instances]. unfold nth_sub.
  destruct (n =? fst (inst_type_loc il) - 1).
  - destruct (nth_error subs j) as [sub|]; cbn [bind]; [| discriminate].
    destruct (n =? fst (inst_port_loc il) - 1); intros H; injection H as <-;
      cbn [out_line]; apply py_replace_count, wt_suffix_count.
  - destruct (n =? fst (inst_port_loc il) - 1); [| apply IH].
    destruct (nth_error subs j) as [sub|]; cbn [bind]; [| discriminate].
    intros H. now injection H as <-.
Qed.

(** Every line action carries its input line, renamed or not: the same
    number of newlines. *)
Lemma process_line_count (i : DbgInstance) (l : ItemLocs) (w : string) (n : Z)
    (s : string) (out : line_out) :
  process_line i l w n s = Ok out -> count_nl (out_line out) = count_nl s.
Proof.
  unfold process_line.
  destruct (scan_instances (sub_instances i) 0 (instance_locations l) n s)
    as [[o|]| |] eqn:E; cbn [bind]; try discriminate.
  - intros H. injection H as <-. exact (scan_instances_count _ _ _ _ _ _ E).
  - destruct (port_location l) as [[port_line port_col] style].
    set (line := if n =? fst (module_location l) - 1 then _ else s).
    assert (Hl : count_nl line = count_nl s).
    { subst line. destruct (n =? fst (module_location l) - 1); [| reflexivity].
      apply py_replace_count. destruct (is_top i); [reflexivity | apply wt_suffix_count]. }
    destruct (n =? port_line - 1).
    { destruct (port_content style i); cbn [bind]; try discriminate.
      intros H. now injection H as <-. }
    destruct (n =? fst (module_location l) - 1).
    { intros H. now injection H as <-. }
    destruct (n =? fst (declaration_location l) - 1).
    { destruct (declaration_content style i) as [c| |]; cbn [bind]; try discriminate.
      destruct (0 <? slen c); intros H; now injection H as <-. }
    destruct (n =? fst (endmodule_location l) - 1); intros H; now injection H as <-.
Qed.

(** A line without an anchor is written as it is. *)
Lemma process_line_no_anchor (i : DbgInstance) (l : ItemLocs) (w : string) (n : Z)
    (s : string) :
  no_anchor l n -> process_line i l w n s = Ok (Plain s).
Proof.
  intros (H1 & H2 & H3 & H4 & H5). unfold process_line.
  rewrite (scan_instances_none _ _ _ _ _ H5). cbn [bind].
  destruct (port_location l) as [[port_line port_col] style]. cbn [fst] in H2.
  apply Z.eqb_neq in H1, H2, H3, H4. now rewrite H1, H2, H3, H4.
Qed.

Lemma patch_lines_spec (i : DbgInstance) (l : ItemLocs) (w : string)
    (lines : list string) :
  forall (n : Z) (outs : list line_out),
    patch_lines i l w n lines = Ok outs ->
    List.length outs = List.length lines
    /\ (forall k line, lines !! k = Some line ->
          exists out, outs !! k = Some out
            /\ process_line i l w (n + Z.of_nat k) line = Ok out
            /\ count_nl (out_line out) = count_nl line)
    /\ exists written,
         emit_all outs = Ok written
         /\ count_nl (str_concat written)
            = sum_Z (map count_nl lines) + sum_Z (map extra_newlines outs).
Proof.
  induction lines as [|line lines IH]; intros n outs H.
  - injection H as <-. repeat split; [intros k line Hk; discriminate |].
    exists []. split; reflexivity.
  - cbn [patch_lines] in H.
    destruct (process_line i l w n line) as [out| |] eqn:Ep; cbn [bind] in H;
      try discriminate.
    destruct (emit out) as [chunks| |] eqn:Ee; cbn [bind] in H; try discriminate.
    destruct (patch_lines i l w (n + 1) lines) as [outs'| |] eqn:Er; cbn [bind] in H;
      try discriminate.
    injection H as <-.
    destruct (IH (n + 1) outs' Er) as (Hlen & Hk & written & Hw & Hc).
    pose proof (process_line_count i l w n line out Ep) as Hcount.
    split; [simpl; now rewrite Hlen |]. split.
    + intros [|k] ln Hln.
      * injection Hln as <-. exists out. rewrite Z.add_0_r. auto.
      * destruct (Hk k ln Hln) as (o & Ho & Hp & Hq). exists o.
        replace (n + Z.of_nat (S k)) with (n + 1 + Z.of_nat k) by lia. auto.
    + exists (chunks ++ written). cbn [emit_all]. rewrite Ee, Hw. cbn [bind].
      split; [reflexivity |].
      rewrite str_concat_app, count_nl_app, (emit_count out chunks Ee), Hc, Hcount.
      cbn [map sum_Z fold_right].
      fold (sum_Z (map count_nl lines)). fold (sum_Z (map extra_newlines outs')). lia.
Qed.

Lemma extra_newlines_block (outs : list line_out) :
  2 * Z.of_nat (count_blocks outs) <= sum_Z (map extra_newlines outs).
Proof.
  unfold count_blocks.
  induction outs as [|o outs IH]; [reflexivity |].
  cbn [map sum_Z fold_right List.filter]. fold (sum_Z (map extra_newlines outs)).
  destruct o as [s | line col content]; cbn [is_block extra_newlines List.length].
  - lia.
  - assert (0 <= count_nl content).
    { unfold count_nl. clear. induction content as [|c s IH]; simpl; [lia |].
      destruct (Ascii.eqb c nl_char); lia. }
    destruct (adds_cr line col), (ends_nl line); lia.
Qed.

(** ** What the patcher does at each anchor *)

(** The first instance location with an anchor on the line decides. *)
Lemma process_line_instance (i : DbgInstance) (l : ItemLocs) (w : string) (n : Z)
    (s : string) (pre post : list InstLoc) (il : InstLoc) (out : line_out) :
  instance_locations l = pre ++ il :: post ->
  Forall (off_line n) pre ->
  n = fst (inst_type_loc il) - 1 \/ n = fst (inst_port_loc il) - 1 ->
  process_line i l w n s = Ok out ->
  exists sub,
    nth_error (sub_instances i) (List.length pre) = Some sub
    /\ out
       = if n =? fst (inst_port_loc il) - 1 then
           if n =? fst (inst_type_loc il) - 1 then
             DebugBlock
               (py_replace (module_type sub)
                  (module_type sub +:+ wt_suffix (inst_id sub)) (Some 1%nat) s)
               (snd (inst_port_loc il) + slen (wt_suffix (inst_id sub)))
               ("    .wt_debug(" +:+ iname sub +:+ "_wt_debug)," +:+ nl)
           else
             DebugBlock s (snd (inst_port_loc il))
               ("    .wt_debug(" +:+ iname sub +:+ "_wt_debug)," +:+ nl)
         else
           Plain (py_replace (module_type sub)
                    (module_type sub +:+ wt_suffix (inst_id sub)) (Some 1%nat) s).
Proof.
  intros Hl Hpre Hn. unfold process_line. rewrite Hl.
  rewrite scan_instances_skip by exact Hpre.
  cbn [scan_instances Nat.add]. unfold nth_sub.
  destruct (nth_error (sub_instances i) (List.length pre)) as [sub|] eqn:Es.
  - intros H. exists sub. split; [reflexivity |].
    destruct (n =? fst (inst_type_loc il) - 1) eqn:Et;
      destruct (n =? fst (inst_port_loc il) - 1) eqn:Ep; cbn [bind] in H.
    + now injection H as <-.
    + now injection H as <-.
    + now injection H as <-.
    + apply Z.eqb_neq in Et, Ep. lia.
  - destruct (n =? fst (inst_type_loc il) - 1) eqn:Et;
      destruct (n =? fst (inst_port_loc il) - 1) eqn:Ep; cbn [bind];
      try discriminate.
    apply Z.eqb_neq in Et, Ep. lia.
Qed.

(** Without an instance anchor on the line, the anchors of the module
    itself decide, in the order port list, header, declaration point,
    [endmodule]. *)
Lemma process_line_module (i : DbgInstance) (l : ItemLocs) (w : string) (n : Z)
    (s : string) (out : line_out) :
  Forall (off_line n) (instance_locations l) ->
  process_line i l w n s = Ok out ->
  let id_str := if is_top i then "" else wt_suffix (inst_id i) in
  let renamed := py_replace (module_type i) (module_type i +:+ id_str) None s in
  (n = fst (fst (port_location l)) - 1 ->
     exists content,
       port_content (snd (port_location l)) i = Ok content
       /\ out = if n =? fst (module_location l) - 1
                then DebugBlock renamed (snd (fst (port_location l)) + slen id_str) content
                else DebugBlock s (snd (fst (port_location l))) content)
  /\ (n <> fst (fst (port_location l)) - 1 -> n = fst (module_location l) - 1 ->
      out = Plain renamed)
  /\ (n <> fst (fst (port_location l)) - 1 -> n <> fst (module_location l) - 1 ->
      n = fst (declaration_location l) - 1 ->
      exists content,
        declaration_content (snd (port_location l)) i = Ok content
        /\ out = if 0 <? slen content
                 then DebugBlock s (snd (declaration_location l)) content
                 else Plain s)
  /\ (n <> fst (fst (port_location l)) - 1 -> n <> fst (module_location l) - 1 ->
      n <> fst (declaration_location l) - 1 ->
      n = fst (endmodule_location l) - 1 ->
      out = DebugBlock s (snd (endmodule_location l) - 1) (endmodule_content i w)).
Proof.
  intros Hoff. unfold process_line.
  rewrite (scan_instances_none _ _ _ _ _ Hoff). cbn [bind].
  destruct (port_location l) as [[port_line port_col] style]. cbn [fst snd].
  intros H. repeat split.
  - intros Hp. rewrite <- Hp, Z.eqb_refl in H.
    destruct (port_content style i) as [content| |]; cbn [bind] in H; try discriminate.
    exists content. split; [reflexivity |].
    injection H as <-. now destruct (n =? fst (module_location l) - 1).
  - intros Hp Hm. apply Z.eqb_neq in Hp. rewrite Hp in H.
    rewrite <- Hm, Z.eqb_refl in H. now injection H as <-.
  - intros Hp Hm Hd. apply Z.eqb_neq in Hp, Hm. rewrite Hp, Hm in H.
    rewrite <- Hd, Z.eqb_refl in H.
    destruct (declaration_content style i) as [content| |]; cbn [bind] in H;
      try discriminate.
    exists content. split; [reflexivity |].
    destruct (0 <? slen content); now injection H as <-.
  - intros Hp Hm Hd He. apply Z.eqb_neq in Hp, Hm, Hd. rewrite Hp, Hm, Hd in H.
    rewrite <- He, Z.eqb_refl in H. now injection H as <-.
Qed.

(** C4, as the code has it: patching a file that is read and patched
    without an error writes the output path and nothing else, and that path
    is not the path of the file read; every input line gets one line action,
    which writes the line, renamed or not, or one debug block, and the first
    anchor on the line decides which, the instance locations in their order
    first, then the port list, the header, the declaration point and
    [endmodule] of the module: a line with the port connections of a
    sub-instance gets the block that connects the debug wire of that
    sub-instance; the line of the port list gets the block with the debug
    ports; the line of the declaration point gets the block with the
    declarations, when there is something to declare, and is written as it
    is when there is nothing; the line of [endmodule] gets the block with
    the assign statement; a line that holds only the type of a sub-instance
    or only the header is written renamed; a line that holds no anchor is
    written as it is; the newlines of the output are the newlines of the
    input plus, for every debug block, the break at the column, the two
    marker lines and the lines of the content, where the newline of the line
    itself is cut off and one is added when the column is not at that
    newline: at least two per block. *)
Theorem generate_hdl_file_frame (fs : files) (i : DbgInstance) (w : string)
    (dbg : list string) (text : string) (l : ItemLocs)
    (fs' : files) (i' : DbgInstance) (dbg' : list string) :
  fs !! filename i = Some text ->
  locs i = Some l ->
  generate_hdl_file fs i w dbg = Ok (fs', i', dbg') ->
  exists outs written,
    patch_lines i (fix_declaration l) w 0 (file_lines text) = Ok outs
    /\ emit_all outs = Ok written
    /\ filename_out i <> filename i
    /\ fs' = <[filename_out i := str_concat written]> fs
    /\ fs' !! filename i = Some text
    /\ (forall p, p <> filename_out i -> fs' !! p = fs !! p)
    /\ dbg' = dbg ++ [filename_out i]
    /\ List.length outs = List.length (file_lines text)
    /\ (forall k line, file_lines text !! k = Some line ->
          no_anchor (fix_declaration l) (Z.of_nat k) ->
          outs !! k = Some (Plain line))
    /\ count_nl (str_concat written)
       = count_nl text + sum_Z (map extra_newlines outs)
    /\ count_nl text + 2 * Z.of_nat (count_blocks outs)
       <= count_nl (str_concat written)
    /\ (forall k line pre il post,
          file_lines text !! k = Some line ->
          instance_locations (fix_declaration l) = pre ++ il :: post ->
          Forall (off_line (Z.of_nat k)) pre ->
          Z.of_nat k = fst (inst_port_loc il) - 1 ->
          exists sub,
            nth_error (sub_instances i) (List.length pre) = Some sub
            /\ outs !! k
               = Some (if Z.of_nat k =? fst (inst_type_loc il) - 1 then
                         DebugBlock
                           (py_replace (module_type sub)
                              (module_type sub +:+ wt_suffix (inst_id sub))
                              (Some 1%nat) line)
                           (snd (inst_port_loc il) + slen (wt_suffix (inst_id sub)))
                           ("    .wt_debug(" +:+ iname sub +:+ "_wt_debug)," +:+ nl)
                       else
                         DebugBlock line (snd (inst_port_loc il))
                           ("    .wt_debug(" +:+ iname sub +:+ "_wt_debug)," +:+ nl)))
    /\ (forall k line pre il post,
          file_lines text !! k = Some line ->
          instance_locations (fix_declaration l) = pre ++ il :: post ->
          Forall (off_line (Z.of_nat k)) pre ->
          Z.of_nat k = fst (inst_type_loc il) - 1 ->
          Z.of_nat k <> fst (inst_port_loc il) - 1 ->
          exists sub,
            nth_error (sub_instances i) (List.length pre) = Some sub
            /\ outs !! k
               = Some (Plain (py_replace (module_type sub)
                                (module_type sub +:+ wt_suffix (inst_id sub))
                                (Some 1%nat) line)))
    /\ (forall k line,
          file_lines text !! k = Some line ->
          Forall (off_line (Z.of_nat k)) (instance_locations (fix_declaration l)) ->
          let l' := fix_declaration l in
          let n := Z.of_nat k in
          let id_str := if is_top i then "" else wt_suffix (inst_id i) in
          let renamed := py_replace (module_type i) (module_type i +:+ id_str) None line in
          (n = fst (fst (port_location l')) - 1 ->
             exists content,
               port_content (snd (port_location l')) i = Ok content
               /\ outs !! k
                  = Some (if n =? fst (module_location l') - 1
                          then DebugBlock renamed
                                 (snd (fst (port_location l')) + slen id_str) content
                          else DebugBlock line (snd (fst (port_location l'))) content))
          /\ (n <> fst (fst (port_location l')) - 1 ->
              n = fst (module_location l') - 1 ->
              outs !! k = Some (Plain renamed))
          /\ (n <> fst (fst (port_location l')) - 1 ->
              n <> fst (module_location l') - 1 ->
              n = fst (declaration_location l') - 1 ->
              exists content,
                declaration_content (snd (port_location l')) i = Ok content
                /\ outs !! k
                   = Some (if 0 <? slen content
                           then DebugBlock line (snd (declaration_location l')) content
                           else Plain line))
          /\ (n <> fst (fst (port_location l')) - 1 ->
              n <> fst (module_location l') - 1 ->
              n <> fst (declaration_location l') - 1 ->
              n = fst (endmodule_location l') - 1 ->
              outs !! k
              = Some (DebugBlock line (snd (endmodule_location l') - 1)
                        (endmodule_content i w)))).
Proof.
  intros Hf Hl H. unfold generate_hdl_file in H. rewrite Hf, Hl in H.
  destruct (patch_lines i (fix_declaration l) w 0 (file_lines text))
    as [outs| |] eqn:Ep; cbn [bind] in H; try discriminate.
  destruct (patch_lines_spec i (fix_declaration l) w (file_lines text) 0 outs Ep)
    as (Hlen & Hk & written & Hw & Hc).
  rewrite Hw in H. cbn [bind] in H. injection H as <- <- <-.
  destruct (filename_out_fresh i) as [_ Hne].
  rewrite <- count_nl_lines, file_lines_concat in Hc.
  exists outs, written.
  split; [reflexivity |]. split; [exact Hw |]. split; [exact Hne |].
  split; [reflexivity |].
  split; [rewrite lookup_insert_ne by exact Hne; exact Hf |].
  split; [intros p Hp; now rewrite lookup_insert_ne by congruence |].
  split; [reflexivity |]. split; [exact Hlen |].
  split.
  { intros k line Hline Hno.
    destruct (Hk k line Hline) as (out & Ho & Hp & _).
    rewrite Z.add_0_l, (process_line_no_anchor i _ w _ line Hno) in Hp.
    injection Hp as <-. exact Ho. }
  split; [exact Hc |].
  split; [rewrite Hc; pose proof (extra_newlines_block outs); lia |].
  split.
  { intros k line pre il post Hline Hil Hpre Hport.
    destruct (Hk k line Hline) as (out & Ho & Hp & _). rewrite Z.add_0_l in Hp.
    destruct (process_line_instance i _ w _ line pre post il out Hil Hpre
                (or_intror Hport) Hp) as (sub & Hsub & ->).
    exists sub. split; [exact Hsub |]. rewrite Ho.
    rewrite <- Hport, Z.eqb_refl.
    now destruct (Z.of_nat k =? fst (inst_type_loc il) - 1). }
  split.
  { intros k line pre il post Hline Hil Hpre Htype Hport.
    destruct (Hk k line Hline) as (out & Ho & Hp & _). rewrite Z.add_0_l in Hp.
    destruct (process_line_instance i _ w _ line pre post il out Hil Hpre
                (or_introl Htype) Hp) as (sub & Hsub & ->).
    exists sub. split; [exact Hsub |]. rewrite Ho.
    apply Z.eqb_neq in Hport. now rewrite Hport. }
  intros k line Hline Hoff.
  destruct (Hk k line Hline) as (out & Ho & Hp & _). rewrite Z.add_0_l in Hp.
  destruct (process_line_module i _ w _ line out Hoff Hp) as (M1 & M2 & M3 & M4).
  cbv zeta. rewrite Ho. split; [| split; [| split]].
  - intros Hn. destruct (M1 Hn) as (content & Hc1 & ->). exists content.
    split; [exact Hc1 |].
    now destruct (Z.of_nat k =? fst (module_location (fix_declaration l)) - 1).
  - intros Hn Hm. now rewrite (M2 Hn Hm).
  - intros Hn Hm Hd. destruct (M3 Hn Hm Hd) as (content & Hc1 & ->). exists content.
    split; [exact Hc1 |]. now destruct (0 <? slen content).
  - intros Hn Hm Hd He. now rewrite (M4 Hn Hm Hd He).
Qed.

Lemma generate_hdl_file_frame_witness :
  exists fs' i' dbg' outs written,
    generate_hdl_file scenario_files core0_located "" [] = Ok (fs', i', dbg')
    /\ patch_lines core0_located (fix_declaration core_locs) "" 0 (file_lines core_v)
       = Ok outs
    /\ emit_all outs = Ok written
    /\ fs' !! "rtl/core.v" = Some core_v
    /\ count_nl (str_concat written)
       = count_nl core_v + sum_Z (map extra_newlines outs)
    /\ outs !! 0%nat
       = Some (DebugBlock ("module core_wt0 (input clk, core_wt0_en);" +:+ nl) 17
                 ("  output [8:0] wt_debug," +:+ nl))
    /\ outs !! 2%nat
       = Some (DebugBlock ("endmodule" +:+ nl) 0 (endmodule_content core0_located "")).
Proof.
  destruct (generate_hdl_file scenario_files core0_located "" [])
    as [[[fs' i'] dbg']| |] eqn:E; try (vm_compute in E; discriminate).
  destruct (generate_hdl_file_frame scenario_files core0_located "" [] core_v
              core_locs fs' i' dbg' eq_refl eq_refl E)
    as (outs & written & H1 & H2 & _ & _ & H5 & _ & _ & _ & _ & H10 & _ & _ & _ & H14).
  exists fs', i', dbg', outs, written.
  split; [reflexivity |]. split; [exact H1 |]. split; [exact H2 |].
  split; [exact H5 |]. split; [exact H10 |].
  assert (Hoff : forall k, Forall (off_line (Z.of_nat k))
                             (instance_locations (fix_declaration core_locs)))
    by (intros k; constructor).
  split.
  - destruct (H14 0%nat ("module core (input clk, core_en);" +:+ nl) eq_refl (Hoff 0%nat))
      as (P & _).
    destruct (P eq_refl) as (content & Hc & Ho).
    rewrite Ho. injection Hc as <-. reflexivity.
  - destruct (H14 2%nat ("endmodule" +:+ nl) eq_refl (Hoff 2%nat)) as (_ & _ & _ & P).
    apply P; [discriminate | discriminate | discriminate | reflexivity].
Defined.

(** C4, as the specification states it, fails on [core.v]: the input has 3
    lines and the patcher inserts 2 debug blocks, but the output has 12
    lines and not 5; and of the three insertion anchors it meets, the port
    list, the declaration point and [endmodule], the declaration point gets
    no block, since this instance has nothing to declare there. *)
Lemma patched_lines_not_one_per_block :
  exists fs' i' dbg' outs,
    generate_hdl_file scenario_files core0_located "" [] = Ok (fs', i', dbg')
    /\ fs' !! "output/core_wt0.v" = Some core_wt0_v
    /\ patch_lines core0_located (fix_declaration core_locs) "" 0 (file_lines core_v)
       = Ok outs
    /\ count_nl core_v = 3
    /\ count_blocks outs = 2%nat
    /\ count_nl core_wt0_v = 12
    /\ count_nl core_wt0_v <> count_nl core_v + Z.of_nat (count_blocks outs)
    /\ fst (declaration_location (fix_declaration core_locs)) - 1 = 1
    /\ outs !! 1%nat = Some (Plain ("  reg din_valid; reg [7:0] dout;" +:+ nl)).
Proof.
  do 4 eexists. split; [vm_compute; reflexivity |].
  split; [vm_compute; reflexivity |].
  split; [vm_compute; reflexivity |].
  repeat split. vm_compute. discriminate.
Qed.

(** ** The trees the builder makes have nets of width at least 1 *)

Lemma net_width_positive (s : string) (w : Z) : net_width s = Ok w -> 1 <= w.
Proof.
  unfold net_width. destruct (net_range s) as [[hi lo]| |]; cbn [bind];
    try discriminate.
  intros H. injection H as <-. lia.
Qed.

Lemma widths_positive_node (i : DbgInstance) :
  widths_positive i
  <-> Forall (fun n => 1 <= bit_width n) (local_nets i)
      /\ Forall widths_positive (sub_instances i).
Proof.
  unfold widths_positive. rewrite all_nets_eq, Forall_app.
  split; intros [H1 H2]; (split; [exact H1 |]).
  - induction (sub_instances i) as [|c subs IH]; constructor;
      cbn [flat_map] in H2; apply Forall_app in H2 as [Hc Hs]; auto.
  - induction H2 as [|c subs Hc _ IH]; cbn [flat_map]; [constructor |].
    apply Forall_app. auto.
Qed.

Lemma add_net_widths (scan : string -> list (list string)) (curr i : DbgInstance)
    (path net_string : string) :
  widths_positive curr ->
  add_net scan curr path net_string = Ok i ->
  widths_positive i.
Proof.
  intros Hc. unfold add_net, DbgNet_init.
  destruct (list_first _) as [nm| |]; cbn [bind]; try discriminate.
  destruct (String.eqb _ "none"); cbn [bind error]; try discriminate.
  destruct (list_last _) as [tok| |]; cbn [bind]; try discriminate.
  destruct (net_width tok) as [w| |] eqn:Ew; cbn [bind]; try discriminate.
  destruct (negb _ && _); cbn [bind error]; try discriminate.
  intros H. injection H as <-.
  apply widths_positive_node in Hc as [Hl Hs].
  apply widths_positive_node. cbn [with_local_nets local_nets sub_instances].
  split; [| exact Hs].
  apply Forall_app. split; [exact Hl |]. constructor; [| constructor].
  exact (net_width_positive tok w Ew).
Qed.

Lemma new_sub_instance_widths
    (locate : string -> string -> string -> option InstLoc)
    (src : list (string * string)) (curr sub : DbgInstance) (nm path : string)
    (cnt cnt' : gmap string Z) :
  new_sub_instance locate src curr nm path cnt = Ok (sub, cnt') ->
  widths_positive sub.
Proof.
  unfold new_sub_instance.
  destruct (locate _ _ _) as [res|]; [| discriminate].
  destruct (_module_exists src (inst_type res)) as [[|]| |]; cbn [bind negb error];
    try discriminate.
  destruct (fname_of _) as [f| |]; cbn [bind]; try discriminate.
  intros H. injection H as <- _. constructor.
Qed.

Lemma update_sub_widths (nm : string) (new : DbgInstance) (subs : list DbgInstance) :
  widths_positive new -> Forall widths_positive subs ->
  Forall widths_positive (update_sub nm new subs).
Proof.
  intros Hn H. induction H as [|m subs Hm Hs IH]; [constructor |].
  cbn [update_sub]. destruct (String.eqb (iname m) nm); constructor; auto.
Qed.

Lemma get_sub_instance_widths (curr sub : DbgInstance) (nm : string) :
  widths_positive curr -> get_sub_instance curr nm = Some sub -> widths_positive sub.
Proof.
  intros Hc Hf. apply widths_positive_node in Hc as [_ Hs].
  unfold get_sub_instance in Hf. apply find_some in Hf as [Hin _].
  rewrite Forall_forall in Hs. apply Hs. now apply list_elem_of_In.
Qed.

Lemma walk_path_widths (scan : string -> list (list string))
    (locate : string -> string -> string -> option InstLoc)
    (src : list (string * string)) (hierarchy : list string) (path : string) :
  forall (curr i : DbgInstance) (cnt cnt' : gmap string Z),
    widths_positive curr ->
    walk_path scan locate src hierarchy path curr cnt = Ok (i, cnt') ->
    widths_positive i.
Proof.
  induction hierarchy as [|h rest IH]; intros curr i cnt cnt' Hc H.
  - injection H as <- _. exact Hc.
  - cbn [walk_path] in H. destruct rest as [|h' rest'].
    + destruct (add_net scan curr path h) as [j| |] eqn:E; cbn [bind] in H;
        try discriminate.
      injection H as <- _. exact (add_net_widths scan curr j path h Hc E).
    + set (rest := h' :: rest') in *.
      destruct (get_sub_instance curr h) as [sub|] eqn:Eg.
      * destruct (walk_path scan locate src rest path sub cnt) as [[sub' c1]| |] eqn:Ew;
          cbn [bind] in H; try discriminate.
        injection H as <- _.
        pose proof (IH sub sub' cnt c1 (get_sub_instance_widths curr sub h Hc Eg) Ew).
        apply widths_positive_node in Hc as [Hl Hs].
        apply widths_positive_node. cbn [with_sub_instances local_nets sub_instances].
        split; [exact Hl | now apply update_sub_widths].
      * destruct (new_sub_instance locate src curr h path cnt) as [[sub c1]| |] eqn:En;
          cbn [bind] in H; try discriminate.
        destruct (walk_path scan locate src rest path sub c1) as [[sub' c2]| |] eqn:Ew;
          cbn [bind] in H; try discriminate.
        injection H as <- _.
        pose proof (IH sub sub' c1 c2
                      (new_sub_instance_widths locate src curr sub h path cnt c1 En) Ew).
        apply widths_positive_node in Hc as [Hl Hs].
        apply widths_positive_node. cbn [with_sub_instances local_nets sub_instances].
        split; [exact Hl |]. apply Forall_app. split; [exact Hs | now constructor].
Qed.

Lemma build_paths_widths (scan : string -> list (list string))
    (locate : string -> string -> string -> option InstLoc)
    (src : list (string * string)) (paths : list string) :
  forall (top top' : DbgInstance) (cnt cnt' : gmap string Z),
    widths_positive top ->
    build_paths scan locate src paths top cnt = Ok (top', cnt') ->
    widths_positive top'.
Proof.
  induction paths as [|p paths IH]; intros top top' cnt cnt' Ht H.
  - injection H as <- _. exact Ht.
  - cbn [build_paths] in H.
    destruct (walk_path scan locate src (str_split "." p) p top cnt)
      as [[t1 c1]| |] eqn:Ew; cbn [bind] in H; try discriminate.
    exact (IH t1 top' c1 cnt' (walk_path_widths _ _ _ _ _ _ _ _ _ Ht Ew) H).
Qed.

(** The tree [_build_data_structure] lays out, from a top-level instance
    that [top] has just made, has nets of width at least 1 only, and its
    [data_bits] is the end offset of the position pass. *)
Lemma build_then_layout (scan : string -> list (list string))
    (locate : string -> string -> string -> option InstLoc)
    (wt wt' : WTSetup) (top : DbgInstance) :
  top_level wt = Some top -> widths_positive top ->
  _build_data_structure scan locate wt = Ok wt' ->
  exists built,
    top_level wt' = Some (fst (set_vector_pos (fst (set_port_widths built)) 0))
    /\ widths_positive (fst (set_port_widths built))
    /\ data_bits wt' = snd (set_vector_pos (fst (set_port_widths built)) 0).
Proof.
  intros Ht Hp. unfold _build_data_structure. rewrite Ht.
  destruct (build_paths scan locate (src_modules wt) (net_paths wt) top ∅)
    as [[built cnt]| |] eqn:Eb; cbn [bind]; try discriminate.
  pose proof (build_paths_widths _ _ _ _ _ _ _ _ Hp Eb) as Hb.
  destruct (width_pass_all built) as (Hw & _ & _ & Hn).
  destruct (position_pass_all (fst (set_port_widths built)) 0) as [_ Hs].
  rewrite place_nets_snd, Hn in Hs.
  destruct (set_port_widths built) as [t2 bits] eqn:E2. cbn [fst snd] in *.
  destruct (set_vector_pos t2 0) as [t3 pos] eqn:E3. cbn [fst snd] in *.
  intros H. injection H as <-. cbn [top_level data_bits].
  exists built. rewrite E2. cbn [fst]. rewrite E3. cbn [fst snd].
  repeat split.
  - unfold widths_positive. now rewrite Hn.
  - lia.
Qed.

(** ** What a walk down one path does to the tree *)

















(** ** The shape of the tree and the passes that keep it *)

Lemma shape_of_eq (i : DbgInstance) :
  shape_of i
  = Shape (iname i) (module_type i) (filename i) (is_top i) (inst_id i)
      (map path (local_nets i)) (map shape_of (sub_instances i)).
Proof. now destruct i. Qed.








(** ** Sub-instances are reused by name *)









(** ** The ids of the sub-instances *)













(** ** Removing sources from the module index *)





















(** ** The debug block in a line *)















(** ** The files the patcher writes *)







Lemma filename_out_shape (a b : DbgInstance) :
  shape_of a = shape_of b -> filename_out a = filename_out b.
Proof.
  rewrite !shape_of_eq. intros H. injection H as _ _ Hf _ Hi _ _.
  unfold filename_out. now rewrite Hf, Hi.
Qed.







(** ** Registering nets *)







